(** * rubic.py: the cube model and the face rotation, and their properties

    A shallow embedding of the class [RubicsCube] of [ev.rubic.py]: the
    three-layer storage, the ring accessors [_side_get] / [_side_put], the
    colour-cycle family [_side_edge_*], the two passes [_rotate_faces] and
    [_rotate_colors] and the public entry point [RotateSide].

    Python's [int] is [Z].  Python lists are Rocq lists, indexed the way
    Python indexes them (negative indices count from the end, anything
    else out of range raises [IndexError]).  [copy.deepcopy] is the
    identity on values.  [print] is not modelled; [exit()] after a
    diagnostic is the exception [SystemExit] carrying the diagnostic. *)

From Stdlib Require Import String ZArith List Lia Bool.
Import ListNotations.
Open Scope Z_scope.

(** ** Exceptions and results *)

Inductive exn : Type :=
| IndexError
| TypeError
| SystemExit (msg : string).

Inductive result (A : Type) : Type :=
| Ok (a : A)
| Raise (e : exn).

Arguments Ok {A} a.
Arguments Raise {A} e.

Definition bind {A B : Type} (m : result A) (k : A -> result B) : result B :=
  match m with
  | Ok a => k a
  | Raise e => Raise e
  end.

Notation "x <- m ;; k" := (bind m (fun x => k))
  (at level 61, m at next level, right associativity).
Notation "' p <- m ;; k" := (bind m (fun p => k))
  (at level 61, p pattern, m at next level, right associativity).

(** ** Python list indexing *)

Module Py.

(** The position a Python index denotes in a list of [n] items. *)
Definition index (n : nat) (i : Z) : option nat :=
  if (0 <=? i) && (i <? Z.of_nat n) then Some (Z.to_nat i)
  else if (i <? 0) && (- Z.of_nat n <=? i) then Some (Z.to_nat (Z.of_nat n + i))
  else None.

Fixpoint update {A : Type} (l : list A) (k : nat) (v : A) : list A :=
  match l, k with
  | [], _ => []
  | _ :: t, O => v :: t
  | h :: t, S k' => h :: update t k' v
  end.

(** [l[i]] *)
Definition getitem {A : Type} (l : list A) (i : Z) : result A :=
  match index (length l) i with
  | Some k =>
      match nth_error l k with
      | Some x => Ok x
      | None => Raise IndexError
      end
  | None => Raise IndexError
  end.

(** [l[i] = v], returning the list after the assignment. *)
Definition setitem {A : Type} (l : list A) (i : Z) (v : A) : result (list A) :=
  match index (length l) i with
  | Some k => Ok (update l k v)
  | None => Raise IndexError
  end.

(** An entry of [_SIDE_INDEX]: the integer [0] or a row of indices. *)
Inductive obj : Type :=
| Int (z : Z)
| List (l : list Z).

(** [o[i]] for such an entry: an [int] is not subscriptable. *)
Definition subscript (o : obj) (i : Z) : result Z :=
  match o with
  | Int _ => Raise TypeError
  | List l => getitem l i
  end.

End Py.

(** ** Module-level constants *)

Definition CUBE_WHITE : Z := 1.
Definition CUBE_YELLOW : Z := 2.
Definition CUBE_RED : Z := 3.
Definition CUBE_GREEN : Z := 4.
Definition CUBE_ORANGE : Z := 5.
Definition CUBE_BLUE : Z := 6.

Definition CUBE_DELAY : Z := 100.

Definition ROTATE_CLOCKWISE : Z := 0.
Definition ROTATE_COUNTER : Z := 1.

Definition CUBE_TOP : Z := 0.
Definition CUBE_MIDDLE : Z := 1.
Definition CUBE_BOTTOM : Z := 2.

Definition CUBE_NULL : Z := 0.
Definition CUBE_EDGE : Z := 1.
Definition CUBE_CORNER : Z := 2.
Definition CUBE_ID : Z := 3.

Definition CUBE_TYPE : Z := 0.

Definition CUBE_ID_0 : Z := 1.
Definition CUBE_ID_FACE_0 : Z := 2.
Definition CUBE_ID_SPACER : Z := 9.

Definition CUBE_EDGE_0 : Z := 1.
Definition CUBE_EDGE_1 : Z := 2.
Definition CUBE_EDGE_FACE_0 : Z := 3.
Definition CUBE_EDGE_FACE_1 : Z := 4.

Definition CUBE_CORNER_0 : Z := 1.
Definition CUBE_CORNER_1 : Z := 2.
Definition CUBE_CORNER_2 : Z := 3.
Definition CUBE_CORNER_FACE_0 : Z := 4.
Definition CUBE_CORNER_FACE_1 : Z := 5.
Definition CUBE_CORNER_FACE_2 : Z := 6.

(** A cell is a list of seven integers: its kind, its colours and the
    faces the colours are bound to.  A layer and a ring are lists of eight
    cells, the cube is a list of three layers. *)
Definition Cell : Type := list Z.
Definition Layer : Type := list Cell.
Definition Side : Type := list Cell.
Definition Cube : Type := list Layer.

Definition CUBE_NIL : Cell :=
  [CUBE_NULL; CUBE_NULL; CUBE_NULL; CUBE_NULL; CUBE_NULL; CUBE_NULL; CUBE_NULL; CUBE_NULL].

(** ** Class-level tables of [RubicsCube] *)

Definition _SIDE_INDEX_0000 : Z := 0.
Definition _SIDE_INDEX_0130 : Z := 1.
Definition _SIDE_INDEX_0300 : Z := 2.
Definition _SIDE_INDEX_0430 : Z := 3.
Definition _SIDE_INDEX_0600 : Z := 4.
Definition _SIDE_INDEX_0730 : Z := 5.
Definition _SIDE_INDEX_0900 : Z := 6.
Definition _SIDE_INDEX_1030 : Z := 7.

(** Rows are in clock order 0000, 0130, 0300, 0430, 0600, 0730, 0900, 1030. *)
Definition _SIDE_WHITE : list Z := [0; 1; 2; 3; 4; 5; 6; 7].
Definition _SIDE_YELLOW : list Z := [0; 7; 6; 5; 4; 3; 2; 1].
Definition _SIDE_RED : list Z := [0; 7; 7; 7; 0; 1; 1; 1].
Definition _SIDE_GREEN : list Z := [2; 1; 1; 1; 2; 3; 3; 3].
Definition _SIDE_ORANGE : list Z := [4; 3; 3; 3; 4; 5; 5; 5].
Definition _SIDE_BLUE : list Z := [6; 5; 5; 5; 6; 7; 7; 7].

Definition _SIDE_INDEX : list Py.obj :=
  [Py.Int 0; Py.List _SIDE_WHITE; Py.List _SIDE_YELLOW; Py.List _SIDE_RED;
   Py.List _SIDE_GREEN; Py.List _SIDE_ORANGE; Py.List _SIDE_BLUE].

(** [RubicsCube._SIDE_INDEX[ side_id_P ][ pos ]] *)
Definition side_index (side_id_P pos : Z) : result Z :=
  row <- Py.getitem _SIDE_INDEX side_id_P ;;
  Py.subscript row pos.

Definition edge_cell (c0 c1 : Z) : Cell :=
  [CUBE_EDGE; c0; c1; c0; c1; CUBE_ID_SPACER; CUBE_ID_SPACER].
Definition corner_cell (c0 c1 c2 : Z) : Cell :=
  [CUBE_CORNER; c0; c1; c2; c0; c1; c2].
Definition id_cell (c : Z) : Cell :=
  [CUBE_ID; c; c; CUBE_ID_SPACER; CUBE_ID_SPACER; CUBE_ID_SPACER; CUBE_ID_SPACER].

Definition _CUBE_WR := edge_cell CUBE_WHITE CUBE_RED.
Definition _CUBE_WG := edge_cell CUBE_WHITE CUBE_GREEN.
Definition _CUBE_WO := edge_cell CUBE_WHITE CUBE_ORANGE.
Definition _CUBE_WB := edge_cell CUBE_WHITE CUBE_BLUE.
Definition _CUBE_WRG := corner_cell CUBE_WHITE CUBE_RED CUBE_GREEN.
Definition _CUBE_WGO := corner_cell CUBE_WHITE CUBE_GREEN CUBE_ORANGE.
Definition _CUBE_WOB := corner_cell CUBE_WHITE CUBE_ORANGE CUBE_BLUE.
Definition _CUBE_WBR := corner_cell CUBE_WHITE CUBE_BLUE CUBE_RED.

Definition _CUBE_RGM := edge_cell CUBE_RED CUBE_GREEN.
Definition _CUBE_GOM := edge_cell CUBE_GREEN CUBE_ORANGE.
Definition _CUBE_OBM := edge_cell CUBE_ORANGE CUBE_BLUE.
Definition _CUBE_BRM := edge_cell CUBE_BLUE CUBE_RED.

Definition _CUBE_YR := edge_cell CUBE_YELLOW CUBE_RED.
Definition _CUBE_YG := edge_cell CUBE_YELLOW CUBE_GREEN.
Definition _CUBE_YO := edge_cell CUBE_YELLOW CUBE_ORANGE.
Definition _CUBE_YB := edge_cell CUBE_YELLOW CUBE_BLUE.
Definition _CUBE_YGR := corner_cell CUBE_YELLOW CUBE_GREEN CUBE_RED.
Definition _CUBE_YOG := corner_cell CUBE_YELLOW CUBE_ORANGE CUBE_GREEN.
Definition _CUBE_YBO := corner_cell CUBE_YELLOW CUBE_BLUE CUBE_ORANGE.
Definition _CUBE_YRB := corner_cell CUBE_YELLOW CUBE_RED CUBE_BLUE.

Definition _CUBE_RED := id_cell CUBE_RED.
Definition _CUBE_GED := id_cell CUBE_GREEN.
Definition _CUBE_OED := id_cell CUBE_ORANGE.
Definition _CUBE_BED := id_cell CUBE_BLUE.

(** ** The object *)

(** The attributes of a [RubicsCube] that outlive a call.  The eight
    scratch attributes [_1030] ... [_0900] are assigned by
    [_side_deepcopy] at the start of each pass before anything reads them,
    so they are local bindings of the two passes below. *)
Record RubicsCube : Type := mkRubicsCube {
  _cube : Cube;
  _cube_solved : Cube
}.

(** [__init__] *)
Definition __init__ : RubicsCube :=
  let bot := [_CUBE_YR; _CUBE_YGR; _CUBE_YG; _CUBE_YOG; _CUBE_YO; _CUBE_YBO; _CUBE_YB; _CUBE_YRB] in
  let mid := [_CUBE_RED; _CUBE_RGM; _CUBE_GED; _CUBE_GOM; _CUBE_OED; _CUBE_OBM; _CUBE_BED; _CUBE_BRM] in
  let top := [_CUBE_WR; _CUBE_WRG; _CUBE_WG; _CUBE_WGO; _CUBE_WO; _CUBE_WOB; _CUBE_WB; _CUBE_WBR] in
  let cube := [top; mid; bot] in
  {| _cube := cube; _cube_solved := cube |}.

(** A method that may mutate [self]: the outcome and the object as the
    call leaves it, also when it raises. *)
Definition method (A : Type) : Type := RubicsCube -> result A * RubicsCube.

(** ** [_side_get] and [_side_put] *)

(** One line of [_side_get]:
    [side[ pos ] = copy.deepcopy( layer[ _SIDE_INDEX[ side_id_P ][ pos ]] )]. *)
Definition side_read (side : Side) (pos : Z) (layer : Layer) (side_id_P : Z) : result Side :=
  i <- side_index side_id_P pos ;;
  cell <- Py.getitem layer i ;;
  Py.setitem side pos cell.

Definition _side_get (self : RubicsCube) (side_id_P : Z) : result Side :=
  top <- Py.getitem (_cube self) CUBE_TOP ;;
  mid <- Py.getitem (_cube self) CUBE_MIDDLE ;;
  bot <- Py.getitem (_cube self) CUBE_BOTTOM ;;
  let side := [CUBE_NIL; CUBE_NIL; CUBE_NIL; CUBE_NIL; CUBE_NIL; CUBE_NIL; CUBE_NIL; CUBE_NIL] in
  let '(top, mid, bot) :=
    if side_id_P =? CUBE_WHITE then (top, top, top)
    else if side_id_P =? CUBE_YELLOW then (bot, bot, bot)
    else (top, mid, bot) in
  side <- side_read side _SIDE_INDEX_0000 top side_id_P ;;
  side <- side_read side _SIDE_INDEX_0130 top side_id_P ;;
  side <- side_read side _SIDE_INDEX_0300 mid side_id_P ;;
  side <- side_read side _SIDE_INDEX_0430 bot side_id_P ;;
  side <- side_read side _SIDE_INDEX_0600 bot side_id_P ;;
  side <- side_read side _SIDE_INDEX_0730 bot side_id_P ;;
  side <- side_read side _SIDE_INDEX_0900 mid side_id_P ;;
  side <- side_read side _SIDE_INDEX_1030 top side_id_P ;;
  Ok side.

(** One line of [_side_put]:
    [self._cube[ layer_id ][ _SIDE_INDEX[ side_id_P ][ pos ]] = copy.deepcopy( side_P[ pos ] )].
    Python evaluates the right-hand side first, then the target. *)
Definition cube_write (cube : Cube) (layer_id : Z) (side_id_P : Z) (pos : Z) (side_P : Side)
  : result Cube :=
  cell <- Py.getitem side_P pos ;;
  layer <- Py.getitem cube layer_id ;;
  i <- side_index side_id_P pos ;;
  layer <- Py.setitem layer i cell ;;
  Py.setitem cube layer_id layer.

(** The eight assignments of [_side_put] in order; an assignment that
    raises leaves the earlier ones in place. *)
Fixpoint cube_writes (cube : Cube) (side_id_P : Z) (side_P : Side) (ws : list (Z * Z))
  : result unit * Cube :=
  match ws with
  | [] => (Ok tt, cube)
  | (layer_id, pos) :: ws' =>
      match cube_write cube layer_id side_id_P pos side_P with
      | Ok cube' => cube_writes cube' side_id_P side_P ws'
      | Raise e => (Raise e, cube)
      end
  end.

(** The layer each clock position is written to. *)
Definition put_layers (side_id_P : Z) : Z * Z * Z :=
  let top_id := CUBE_TOP in
  let mid_id := CUBE_MIDDLE in
  let bot_id := CUBE_BOTTOM in
  let '(mid_id, bot_id) :=
    if side_id_P =? CUBE_WHITE then (CUBE_TOP, CUBE_TOP) else (mid_id, bot_id) in
  let '(top_id, mid_id) :=
    if side_id_P =? CUBE_YELLOW then (CUBE_BOTTOM, CUBE_BOTTOM) else (top_id, mid_id) in
  (top_id, mid_id, bot_id).

Definition put_order (side_id_P : Z) : list (Z * Z) :=
  let '(top_id, mid_id, bot_id) := put_layers side_id_P in
  [(top_id, _SIDE_INDEX_0000); (top_id, _SIDE_INDEX_0130);
   (mid_id, _SIDE_INDEX_0300); (bot_id, _SIDE_INDEX_0430);
   (bot_id, _SIDE_INDEX_0600); (bot_id, _SIDE_INDEX_0730);
   (mid_id, _SIDE_INDEX_0900); (top_id, _SIDE_INDEX_1030)].

Definition _side_put (side_id_P : Z) (side_P : Side) : method unit :=
  fun self =>
    let '(r, cube) := cube_writes (_cube self) side_id_P side_P (put_order side_id_P) in
    (r, {| _cube := cube; _cube_solved := _cube_solved self |}).

(** ** Reading the colour a cell shows on a face *)

(** [side_P[ side_index_P ][ k ]] *)
Definition side_cell_item (side_P : Side) (side_index_P k : Z) : result Z :=
  cell <- Py.getitem side_P side_index_P ;;
  Py.getitem cell k.

Definition _side_edge_color_get (side_id_P : Z) (side_P : Side) (side_index_P : Z) : result Z :=
  f0 <- side_cell_item side_P side_index_P CUBE_EDGE_FACE_0 ;;
  if side_id_P =? f0 then side_cell_item side_P side_index_P CUBE_EDGE_0
  else
    f1 <- side_cell_item side_P side_index_P CUBE_EDGE_FACE_1 ;;
    if side_id_P =? f1 then side_cell_item side_P side_index_P CUBE_EDGE_1
    else Raise (SystemExit "illegal edge face").

Definition _side_corner_color_get (side_id_P : Z) (side_P : Side) (side_index_P : Z) : result Z :=
  f0 <- side_cell_item side_P side_index_P CUBE_CORNER_FACE_0 ;;
  if side_id_P =? f0 then side_cell_item side_P side_index_P CUBE_CORNER_0
  else
    f1 <- side_cell_item side_P side_index_P CUBE_CORNER_FACE_1 ;;
    if side_id_P =? f1 then side_cell_item side_P side_index_P CUBE_CORNER_1
    else
      f2 <- side_cell_item side_P side_index_P CUBE_CORNER_FACE_2 ;;
      if side_id_P =? f2 then side_cell_item side_P side_index_P CUBE_CORNER_2
      else Raise (SystemExit "illegal corner face").

(** ** The colour cycles *)

Definition _side_edge_white (direction_P face_color_P : Z) : result Z :=
  if direction_P =? ROTATE_CLOCKWISE then
    if face_color_P =? CUBE_RED then Ok CUBE_GREEN
    else if face_color_P =? CUBE_GREEN then Ok CUBE_ORANGE
    else if face_color_P =? CUBE_ORANGE then Ok CUBE_BLUE
    else if face_color_P =? CUBE_BLUE then Ok CUBE_RED
    else Raise (SystemExit "illegal face")
  else
    if face_color_P =? CUBE_RED then Ok CUBE_BLUE
    else if face_color_P =? CUBE_BLUE then Ok CUBE_ORANGE
    else if face_color_P =? CUBE_ORANGE then Ok CUBE_GREEN
    else if face_color_P =? CUBE_GREEN then Ok CUBE_RED
    else Raise (SystemExit "illegal face").

Definition _side_edge_yellow (direction_P face_color_P : Z) : result Z :=
  let direction :=
    if direction_P =? ROTATE_CLOCKWISE then ROTATE_COUNTER else ROTATE_CLOCKWISE in
  _side_edge_white direction face_color_P.

Definition _side_edge_red (direction_P face_color_P : Z) : result Z :=
  if direction_P =? ROTATE_CLOCKWISE then
    if face_color_P =? CUBE_WHITE then Ok CUBE_BLUE
    else if face_color_P =? CUBE_BLUE then Ok CUBE_YELLOW
    else if face_color_P =? CUBE_YELLOW then Ok CUBE_GREEN
    else if face_color_P =? CUBE_GREEN then Ok CUBE_WHITE
    else Raise (SystemExit "illegal face")
  else
    if face_color_P =? CUBE_WHITE then Ok CUBE_GREEN
    else if face_color_P =? CUBE_GREEN then Ok CUBE_YELLOW
    else if face_color_P =? CUBE_YELLOW then Ok CUBE_BLUE
    else if face_color_P =? CUBE_BLUE then Ok CUBE_WHITE
    else Raise (SystemExit "illegal face").

Definition _side_edge_orange (direction_P face_color_P : Z) : result Z :=
  let direction :=
    if direction_P =? ROTATE_CLOCKWISE then ROTATE_COUNTER else ROTATE_CLOCKWISE in
  _side_edge_red direction face_color_P.

Definition _side_edge_green (direction_P face_color_P : Z) : result Z :=
  if direction_P =? ROTATE_CLOCKWISE then
    if face_color_P =? CUBE_WHITE then Ok CUBE_RED
    else if face_color_P =? CUBE_RED then Ok CUBE_YELLOW
    else if face_color_P =? CUBE_YELLOW then Ok CUBE_ORANGE
    else if face_color_P =? CUBE_ORANGE then Ok CUBE_WHITE
    else Raise (SystemExit "illegal face")
  else
    if face_color_P =? CUBE_WHITE then Ok CUBE_ORANGE
    else if face_color_P =? CUBE_ORANGE then Ok CUBE_YELLOW
    else if face_color_P =? CUBE_YELLOW then Ok CUBE_RED
    else if face_color_P =? CUBE_RED then Ok CUBE_WHITE
    else Raise (SystemExit "illegal face").

Definition _side_edge_blue (direction_P face_color_P : Z) : result Z :=
  let direction :=
    if direction_P =? ROTATE_CLOCKWISE then ROTATE_COUNTER else ROTATE_CLOCKWISE in
  _side_edge_green direction face_color_P.

Definition _side_edge_face_get (direction_P side_id_P face_color_P : Z) : result Z :=
  if side_id_P =? CUBE_WHITE then _side_edge_white direction_P face_color_P
  else if side_id_P =? CUBE_YELLOW then _side_edge_yellow direction_P face_color_P
  else if side_id_P =? CUBE_RED then _side_edge_red direction_P face_color_P
  else if side_id_P =? CUBE_GREEN then _side_edge_green direction_P face_color_P
  else if side_id_P =? CUBE_ORANGE then _side_edge_orange direction_P face_color_P
  else if side_id_P =? CUBE_BLUE then _side_edge_blue direction_P face_color_P
  else Raise (SystemExit "illegal side").

(** ** The face pass *)

(** The eight scratch cells, as [_side_deepcopy] fills them. *)
Record Scratch : Type := mkScratch {
  _1030 : Cell; _0000 : Cell; _0130 : Cell; _0300 : Cell;
  _0430 : Cell; _0600 : Cell; _0730 : Cell; _0900 : Cell
}.

Definition _side_deepcopy (side_P : Side) : result Scratch :=
  c1030 <- Py.getitem side_P _SIDE_INDEX_1030 ;;
  c0000 <- Py.getitem side_P _SIDE_INDEX_0000 ;;
  c0130 <- Py.getitem side_P _SIDE_INDEX_0130 ;;
  c0300 <- Py.getitem side_P _SIDE_INDEX_0300 ;;
  c0430 <- Py.getitem side_P _SIDE_INDEX_0430 ;;
  c0600 <- Py.getitem side_P _SIDE_INDEX_0600 ;;
  c0730 <- Py.getitem side_P _SIDE_INDEX_0730 ;;
  c0900 <- Py.getitem side_P _SIDE_INDEX_0900 ;;
  Ok {| _1030 := c1030; _0000 := c0000; _0130 := c0130; _0300 := c0300;
        _0430 := c0430; _0600 := c0600; _0730 := c0730; _0900 := c0900 |}.

(** The cells passed to the functions below are mutated in place by the
    source; here each function returns the cells it was given as the call
    leaves them, and the caller binds them back to the scratch cell they
    came from.  No call receives the same cell twice. *)

(** Returns [cell_P].  No branch for a corner none of whose faces is
    [edge_P]: the cell is left as it is. *)
Definition _rotate_face_edge_plus_cube_delay
    (cell_P : Cell) (edge_P : Z) (edge_cell_P : Cell) (edge_face_P : Z) : result Cell :=
  f0 <- Py.getitem cell_P CUBE_CORNER_FACE_0 ;;
  if f0 =? edge_P then
    v <- Py.getitem edge_cell_P edge_face_P ;;
    Py.setitem cell_P CUBE_CORNER_FACE_0 (v + CUBE_DELAY)
  else
    f1 <- Py.getitem cell_P CUBE_CORNER_FACE_1 ;;
    if f1 =? edge_P then
      v <- Py.getitem edge_cell_P edge_face_P ;;
      Py.setitem cell_P CUBE_CORNER_FACE_1 (v + CUBE_DELAY)
    else
      f2 <- Py.getitem cell_P CUBE_CORNER_FACE_2 ;;
      if f2 =? edge_P then
        v <- Py.getitem edge_cell_P edge_face_P ;;
        Py.setitem cell_P CUBE_CORNER_FACE_2 (v + CUBE_DELAY)
      else Ok cell_P.

(** One arm of [_rotate_face_edge]: the sticker at [other] is the lateral
    one. *)
Definition rotate_face_edge_arm (side_id_P direction_P : Z)
    (corner_left_P edge_P corner_right_P : Cell) (other : Z) : result (Cell * Cell * Cell) :=
  edge <- Py.getitem edge_P other ;;
  old <- Py.getitem edge_P other ;;
  new <- _side_edge_face_get direction_P side_id_P old ;;
  edge_P <- Py.setitem edge_P other new ;;
  corner_left_P <- _rotate_face_edge_plus_cube_delay corner_left_P edge edge_P other ;;
  corner_right_P <- _rotate_face_edge_plus_cube_delay corner_right_P edge edge_P other ;;
  Ok (corner_left_P, edge_P, corner_right_P).

(** Returns [(corner_left_P, edge_P, corner_right_P)].  No branch for an
    edge neither of whose faces is [side_id_P]: nothing is changed. *)
Definition _rotate_face_edge (side_id_P direction_P : Z)
    (corner_left_P edge_P corner_right_P : Cell) : result (Cell * Cell * Cell) :=
  f0 <- Py.getitem edge_P CUBE_EDGE_FACE_0 ;;
  if f0 =? side_id_P then
    rotate_face_edge_arm side_id_P direction_P corner_left_P edge_P corner_right_P
      CUBE_EDGE_FACE_1
  else
    f1 <- Py.getitem edge_P CUBE_EDGE_FACE_1 ;;
    if f1 =? side_id_P then
      rotate_face_edge_arm side_id_P direction_P corner_left_P edge_P corner_right_P
        CUBE_EDGE_FACE_0
    else Ok (corner_left_P, edge_P, corner_right_P).

Definition _face_minus_cube_delay_face (cell_P : Cell) (face_P : Z) : result Cell :=
  f <- Py.getitem cell_P face_P ;;
  if f >? CUBE_BLUE then
    f <- Py.getitem cell_P face_P ;;
    Py.setitem cell_P face_P (f - CUBE_DELAY)
  else Ok cell_P.

Definition _face_minus_cube_delay (cell_P : Cell) : result Cell :=
  cell_P <- _face_minus_cube_delay_face cell_P CUBE_CORNER_FACE_0 ;;
  cell_P <- _face_minus_cube_delay_face cell_P CUBE_CORNER_FACE_1 ;;
  _face_minus_cube_delay_face cell_P CUBE_CORNER_FACE_2.

Definition _side_assign (side_P : Side)
    (_0000_P _0300_P _0600_P _0900_P _0130_P _0430_P _0730_P _1030_P : Cell) : result Side :=
  side_P <- Py.setitem side_P _SIDE_INDEX_0000 _0000_P ;;
  side_P <- Py.setitem side_P _SIDE_INDEX_0300 _0300_P ;;
  side_P <- Py.setitem side_P _SIDE_INDEX_0600 _0600_P ;;
  side_P <- Py.setitem side_P _SIDE_INDEX_0900 _0900_P ;;
  side_P <- Py.setitem side_P _SIDE_INDEX_0130 _0130_P ;;
  side_P <- Py.setitem side_P _SIDE_INDEX_0430 _0430_P ;;
  side_P <- Py.setitem side_P _SIDE_INDEX_0730 _0730_P ;;
  Py.setitem side_P _SIDE_INDEX_1030 _1030_P.

(** Returns [side_P] as the pass leaves it. *)
Definition _rotate_faces (direction_P side_id_P : Z) (side_P : Side) : result Side :=
  s <- _side_deepcopy side_P ;;
  let '(mkScratch c1030 c0000 c0130 c0300 c0430 c0600 c0730 c0900) := s in
  '(c1030, c0000, c0130) <- _rotate_face_edge side_id_P direction_P c1030 c0000 c0130 ;;
  '(c0130, c0300, c0430) <- _rotate_face_edge side_id_P direction_P c0130 c0300 c0430 ;;
  '(c0430, c0600, c0730) <- _rotate_face_edge side_id_P direction_P c0430 c0600 c0730 ;;
  '(c0730, c0900, c1030) <- _rotate_face_edge side_id_P direction_P c0730 c0900 c1030 ;;
  c1030 <- _face_minus_cube_delay c1030 ;;
  c0130 <- _face_minus_cube_delay c0130 ;;
  c0430 <- _face_minus_cube_delay c0430 ;;
  c0730 <- _face_minus_cube_delay c0730 ;;
  _side_assign side_P c0000 c0300 c0600 c0900 c0130 c0430 c0730 c1030.

(** ** The position pass *)

Definition _rotate_colors (direction_P side_id_P : Z) (side_P : Side) : result Side :=
  s <- _side_deepcopy side_P ;;
  if direction_P =? ROTATE_CLOCKWISE then
    _side_assign side_P (_0900 s) (_0000 s) (_0300 s) (_0600 s)
                        (_1030 s) (_0130 s) (_0430 s) (_0730 s)
  else
    _side_assign side_P (_0300 s) (_0600 s) (_0900 s) (_0000 s)
                        (_0430 s) (_0730 s) (_1030 s) (_0130 s).

(** ** [RotateSide] *)

Definition RotateSide (side_id_P direction_P : Z) : method unit :=
  fun self =>
    match _side_get self side_id_P with
    | Raise e => (Raise e, self)
    | Ok side =>
        match _rotate_faces direction_P side_id_P side with
        | Raise e => (Raise e, self)
        | Ok side =>
            match _rotate_colors direction_P side_id_P side with
            | Raise e => (Raise e, self)
            | Ok side => _side_put side_id_P side self
            end
        end
    end.

(** [self._cube == self._cube_solved], the solved check of the callers. *)
Definition IsSolved (self : RubicsCube) : Prop := _cube self = _cube_solved self.

(** A run of [RotateSide] calls, stopping at the first that raises. *)
Fixpoint rotations (calls : list (Z * Z)) (self : RubicsCube) : result unit * RubicsCube :=
  match calls with
  | [] => (Ok tt, self)
  | (side_id, direction) :: calls' =>
      match RotateSide side_id direction self with
      | (Ok _, self') => rotations calls' self'
      | (Raise e, self') => (Raise e, self')
      end
  end.

(** ** The callers of [RotateSide] *)

Definition TEST_ROTATE : Z := 1.
Definition TEST_ROTATE_BACK : Z := 2.
Definition PRINT_SIDE_LABEL : Z := 1.

(** Python's [==] on lists of integers and on lists of such lists. *)
Fixpoint list_eqb {A : Type} (eqb : A -> A -> bool) (l1 l2 : list A) : bool :=
  match l1, l2 with
  | [], [] => true
  | x :: t1, y :: t2 => eqb x y && list_eqb eqb t1 t2
  | _, _ => false
  end.

Definition cube_eqb : Cube -> Cube -> bool := list_eqb (list_eqb (list_eqb Z.eqb)).

(** The label branch of [PrintSide]: any face but the six exits. *)
Definition print_side_label (side_id_P : Z) : result unit :=
  if side_id_P =? CUBE_WHITE then Ok tt
  else if side_id_P =? CUBE_YELLOW then Ok tt
  else if side_id_P =? CUBE_RED then Ok tt
  else if side_id_P =? CUBE_GREEN then Ok tt
  else if side_id_P =? CUBE_ORANGE then Ok tt
  else if side_id_P =? CUBE_BLUE then Ok tt
  else Raise (SystemExit "ERROR: invalid side").

(** [PrintSide], returning the three rows of the grid it prints. *)
Definition PrintSide (self : RubicsCube) (flag_P side_id_P : Z) : result (list (list Z)) :=
  side <- _side_get self side_id_P ;;
  _ <- (if flag_P =? PRINT_SIDE_LABEL then print_side_label side_id_P else Ok tt) ;;
  face_1030 <- _side_corner_color_get side_id_P side _SIDE_INDEX_1030 ;;
  face_0000 <- _side_edge_color_get side_id_P side _SIDE_INDEX_0000 ;;
  face_0130 <- _side_corner_color_get side_id_P side _SIDE_INDEX_0130 ;;
  face_0300 <- _side_edge_color_get side_id_P side _SIDE_INDEX_0300 ;;
  face_0430 <- _side_corner_color_get side_id_P side _SIDE_INDEX_0430 ;;
  face_0600 <- _side_edge_color_get side_id_P side _SIDE_INDEX_0600 ;;
  face_0730 <- _side_corner_color_get side_id_P side _SIDE_INDEX_0730 ;;
  face_0900 <- _side_edge_color_get side_id_P side _SIDE_INDEX_0900 ;;
  Ok [[face_1030; face_0000; face_0130];
      [face_0900; side_id_P; face_0300];
      [face_0730; face_0600; face_0430]].

(** [PrintSide( PRINT_SIDE_LABEL, f )] for each [f] of a list, in order. *)
Fixpoint print_sides (self : RubicsCube) (faces : list Z) : result (list (list (list Z))) :=
  match faces with
  | [] => Ok []
  | f :: faces' =>
      grid <- PrintSide self PRINT_SIDE_LABEL f ;;
      grids <- print_sides self faces' ;;
      Ok (grid :: grids)
  end.

Definition PrintCube (self : RubicsCube) : result (list (list (list Z))) :=
  print_sides self [CUBE_WHITE; CUBE_YELLOW; CUBE_RED; CUBE_GREEN; CUBE_ORANGE; CUBE_BLUE].

(** [status_P] is the outcome of [self._cube == self._cube_solved]. *)
Definition _test_resolve_msg (flag_P side_id_P : Z) (status_P : bool) : result unit :=
  if flag_P =? TEST_ROTATE_BACK then
    if status_P then Ok tt
    else Raise (SystemExit "** NOT SOLVED **")
  else Ok tt.

(** The faces [TestRotate] prints after the loop, and the two it keeps for
    the end. *)
Definition test_rotate_faces (side_id_P : Z) : list Z * Z * Z :=
  if (side_id_P =? CUBE_WHITE) || (side_id_P =? CUBE_YELLOW) then
    ([CUBE_RED; CUBE_GREEN; CUBE_ORANGE; CUBE_BLUE], CUBE_WHITE, CUBE_YELLOW)
  else if side_id_P =? CUBE_RED then
    ([CUBE_WHITE; CUBE_YELLOW; CUBE_GREEN; CUBE_BLUE], CUBE_RED, CUBE_ORANGE)
  else if side_id_P =? CUBE_GREEN then
    ([CUBE_WHITE; CUBE_YELLOW; CUBE_RED; CUBE_ORANGE], CUBE_GREEN, CUBE_BLUE)
  else if side_id_P =? CUBE_ORANGE then
    ([CUBE_WHITE; CUBE_YELLOW; CUBE_GREEN; CUBE_BLUE], CUBE_RED, CUBE_ORANGE)
  else
    ([CUBE_WHITE; CUBE_YELLOW; CUBE_ORANGE; CUBE_RED], CUBE_GREEN, CUBE_BLUE).

(** [TestRotate]; the message argument is only printed and is left out.
    [range( 0, iterations_P )] is empty for a negative count. *)
Definition TestRotate (flag_P side_id_P direction_P iterations_P : Z) : method unit :=
  fun self =>
    match rotations (repeat (side_id_P, direction_P) (Z.to_nat iterations_P)) self with
    | (Raise e, self) => (Raise e, self)
    | (Ok _, self) =>
        let '(shown, solved_missing_1, solved_missing_2) := test_rotate_faces side_id_P in
        let back :=
          if flag_P =? TEST_ROTATE_BACK then
            (if solved_missing_1 =? CUBE_ID then [] else [solved_missing_1]) ++
            (if solved_missing_2 =? CUBE_ID then [] else [solved_missing_2])
          else [] in
        match print_sides self (shown ++ back) with
        | Raise e => (Raise e, self)
        | Ok _ =>
            (_test_resolve_msg flag_P side_id_P (cube_eqb (_cube self) (_cube_solved self)),
             self)
        end
    end.

(** ** The core of the Y-permutator *)

Definition _y_permutator_core (side_id_1_P side_id_2_P rotate_bracket_P rotate_mid_P : Z)
  : method unit :=
  rotations [(side_id_1_P, rotate_bracket_P); (side_id_2_P, rotate_mid_P);
             (side_id_1_P, rotate_mid_P); (side_id_2_P, rotate_bracket_P)].

(** * Vocabulary of the properties *)

(** ** Valid arguments, shapes and places *)

(** The six faces and the two directions. *)
Definition valid_side (side_id : Z) : Prop := CUBE_WHITE <= side_id <= CUBE_BLUE.

Definition valid_direction (d : Z) : Prop := d = ROTATE_CLOCKWISE \/ d = ROTATE_COUNTER.

Definition valid_call (call : Z * Z) : Prop :=
  valid_side (fst call) /\ valid_direction (snd call).

(** Three layers of eight cells. *)
Definition shaped (c : Cube) : Prop :=
  length c = 3%nat /\ Forall (fun l : Layer => length l = 8%nat) c.

(** The cell stored at index [i] of layer [l]. *)
Definition slot_at (c : Cube) (l i : nat) : option Cell :=
  match nth_error c l with
  | Some layer => nth_error layer i
  | None => None
  end.

(** The places the assignments [ws] of [_side_put] store to. *)
Definition write_cells (side_id : Z) (ws : list (Z * Z)) : list (nat * nat) :=
  flat_map (fun '(layer_id, pos) =>
              match side_index side_id pos with
              | Ok i => [(Z.to_nat layer_id, Z.to_nat i)]
              | Raise _ => []
              end) ws.

(** The ring of a face: the eight places of [_SIDE_INDEX[f]] in the layers
    [_side_put] selects for [f]. *)
Definition ring_cells (side_id : Z) : list (nat * nat) :=
  write_cells side_id (put_order side_id).

(** ** Pieces: what a place of the cube holds *)

(** The kind of cell a place holds and the faces its stickers are bound to,
    in any order; a centre never moves. *)
Inductive piece : Type :=
| PEdge (a b : Z)
| PCorner (a b c : Z)
| PCentre (cell : Cell).

Inductive holds : piece -> Cell -> Prop :=
| holds_edge (a b c0 c1 f0 f1 x y : Z) :
    (f0 = a /\ f1 = b) \/ (f0 = b /\ f1 = a) ->
    holds (PEdge a b) [CUBE_EDGE; c0; c1; f0; f1; x; y]
| holds_corner (a b c c0 c1 c2 g0 g1 g2 : Z) :
    In (g0, g1, g2) [(a, b, c); (a, c, b); (b, a, c); (b, c, a); (c, a, b); (c, b, a)] ->
    holds (PCorner a b c) [CUBE_CORNER; c0; c1; c2; g0; g1; g2]
| holds_centre (cell : Cell) :
    holds (PCentre cell) cell.

(** The piece a cell of the solved cube stands for. *)
Definition place (ref : Cell) : piece :=
  match ref with
  | [t; _; _; x3; x4; x5; x6] =>
      if t =? CUBE_EDGE then PEdge x3 x4
      else if t =? CUBE_CORNER then PCorner x4 x5 x6
      else PCentre ref
  | _ => PCentre ref
  end.

Definition layout : list (list piece) := map (map place) (_cube __init__).

(** Every place holds a cell of the kind, and bound to the faces, of the
    solved cube's cell at that place. *)
Definition cube_inv (c : Cube) : Prop := Forall2 (Forall2 holds) layout c.

(** The pieces of the ring of [f], in clock order. *)
Definition ring_pieces (f : Z) : list piece :=
  match _side_get __init__ f with
  | Ok side => map place side
  | Raise _ => []
  end.

(** ** The face pass, cell by cell *)

(** What [_rotate_face_edge_plus_cube_delay] leaves in a corner. *)
Definition markv (cell : Cell) (old new : Z) : Cell :=
  match cell with
  | [t; c0; c1; c2; g0; g1; g2] =>
      if g0 =? old then [t; c0; c1; c2; new + CUBE_DELAY; g1; g2]
      else if g1 =? old then [t; c0; c1; c2; g0; new + CUBE_DELAY; g2]
      else if g2 =? old then [t; c0; c1; c2; g0; g1; new + CUBE_DELAY]
      else cell
  | _ => cell
  end.

(** What [_face_minus_cube_delay] leaves in a corner. *)
Definition unmarkv (cell : Cell) : Cell :=
  match cell with
  | [t; c0; c1; c2; g0; g1; g2] =>
      let um g := if g >? CUBE_BLUE then g - CUBE_DELAY else g in
      [t; c0; c1; c2; um g0; um g1; um g2]
  | _ => cell
  end.

(** The relabelling of one face by a turn of [f]: the face [f] stays, a
    lateral face moves to the next one of the cycle of [f]. *)
Definition sigma (d f x : Z) : Z :=
  if x =? f then x
  else match _side_edge_face_get d f x with
       | Ok y => y
       | Raise _ => x
       end.

Definition relabel_edge (d f : Z) (cell : Cell) : Cell :=
  match cell with
  | [t; c0; c1; f0; f1; x; y] => [t; c0; c1; sigma d f f0; sigma d f f1; x; y]
  | _ => cell
  end.

Definition relabel_corner (d f : Z) (cell : Cell) : Cell :=
  match cell with
  | [t; c0; c1; c2; g0; g1; g2] => [t; c0; c1; c2; sigma d f g0; sigma d f g1; sigma d f g2]
  | _ => cell
  end.

(** The lateral face of an edge piece in the ring of [f]. *)
Definition lateral (f a b : Z) : Z := if a =? f then b else a.

(** The face pass on a whole ring: edges on the hour, corners in between. *)
Definition relabel_ring (d f : Z) (side : Side) : Side :=
  match side with
  | [e0; c1; e2; c3; e4; c5; e6; c7] =>
      [relabel_edge d f e0; relabel_corner d f c1; relabel_edge d f e2; relabel_corner d f c3;
       relabel_edge d f e4; relabel_corner d f c5; relabel_edge d f e6; relabel_corner d f c7]
  | _ => side
  end.

(** The turn as a function: relabel the ring, shift it, store it. *)
Definition turn (d f : Z) (self : RubicsCube) : RubicsCube :=
  match _side_get self f with
  | Ok side =>
      match _rotate_colors d f (relabel_ring d f side) with
      | Ok side' => snd (_side_put f side' self)
      | Raise _ => self
      end
  | Raise _ => self
  end.

(** ** Reachable cubes *)

(** The cubes [RotateSide] produces from the new cube, called with one of
    the six faces and one of the two directions. *)
Inductive reachable : RubicsCube -> Prop :=
| reachable_init : reachable __init__
| reachable_rotate (self self' : RubicsCube) (f d : Z) :
    reachable self -> valid_side f -> valid_direction d ->
    RotateSide f d self = (Ok tt, self') ->
    reachable self'.

(** A scrambled cube for the examples. *)
Definition scramble : list (Z * Z) :=
  [(CUBE_RED, ROTATE_CLOCKWISE); (CUBE_GREEN, ROTATE_COUNTER); (CUBE_GREEN, ROTATE_COUNTER);
   (CUBE_BLUE, ROTATE_CLOCKWISE); (CUBE_WHITE, ROTATE_COUNTER); (CUBE_YELLOW, ROTATE_CLOCKWISE)].

Definition scrambled : RubicsCube := snd (rotations scramble __init__).

(** ** Sticker colours *)

(** The colours a cell carries: two for an edge, three for a corner, one
    for a centre. *)
Definition stickers (cell : Cell) : list Z :=
  match cell with
  | t :: c0 :: c1 :: c2 :: _ =>
      if t =? CUBE_EDGE then [c0; c1]
      else if t =? CUBE_CORNER then [c0; c1; c2]
      else if t =? CUBE_ID then [c0]
      else []
  | _ => []
  end.

Definition count_color (color : Z) (l : list Z) : nat :=
  length (filter (Z.eqb color) l).

(** How many stickers of a colour the three layers store. *)
Definition sticker_count (c : Cube) (color : Z) : nat :=
  list_sum (map (fun cell => count_color color (stickers cell)) (concat c)).

(** The counts of the new cube. *)
Definition solved_counts (c : Cube) : Prop :=
  sticker_count c CUBE_WHITE = 8%nat /\ sticker_count c CUBE_YELLOW = 8%nat /\
  sticker_count c CUBE_RED = 9%nat /\ sticker_count c CUBE_GREEN = 9%nat /\
  sticker_count c CUBE_ORANGE = 9%nat /\ sticker_count c CUBE_BLUE = 9%nat.

(** ** Vocabulary of the further properties *)

(** The other direction, as [TestRotateRandom] flips it when it unwinds. *)
Definition flip (direction : Z) : Z :=
  if direction =? ROTATE_CLOCKWISE then ROTATE_COUNTER else ROTATE_CLOCKWISE.

(** The calls that unwind [calls]: last call first, directions flipped. *)
Definition unwind (calls : list (Z * Z)) : list (Z * Z) :=
  rev (map (fun call => (fst call, flip (snd call))) calls).

(** The face opposite to a face. *)
Definition opposite (f : Z) : Z :=
  if f =? CUBE_WHITE then CUBE_YELLOW
  else if f =? CUBE_YELLOW then CUBE_WHITE
  else if f =? CUBE_RED then CUBE_ORANGE
  else if f =? CUBE_ORANGE then CUBE_RED
  else if f =? CUBE_GREEN then CUBE_BLUE
  else if f =? CUBE_BLUE then CUBE_GREEN
  else f.

(** A face next to [f]: one of the six, neither [f] nor its opposite. *)
Definition adjacent (f c : Z) : Prop := valid_side c /\ c <> f /\ c <> opposite f.

(** What identifies a piece: the kind of the cell and its colours. *)
Definition piece_id (cell : Cell) : list Z :=
  match cell with
  | t :: _ => t :: stickers cell
  | [] => []
  end.

(** How many cells of the three layers are the piece [id]. *)
Definition piece_count (c : Cube) (id : list Z) : nat :=
  list_sum (map (fun cell => if list_eqb Z.eqb (piece_id cell) id then 1%nat else 0%nat)
              (concat c)).

(** The colour of the sticker an edge, or a corner, has on face [f]. *)
Definition shown_edge (f : Z) (cell : Cell) : Z :=
  match cell with
  | [_; c0; c1; f0; _; _; _] => if f =? f0 then c0 else c1
  | _ => 0
  end.

Definition shown_corner (f : Z) (cell : Cell) : Z :=
  match cell with
  | [_; c0; c1; c2; g0; g1; _] => if f =? g0 then c0 else if f =? g1 then c1 else c2
  | _ => 0
  end.

(** The grid of a face, from its ring. *)
Definition grid_of (f : Z) (ring : Side) : list (list Z) :=
  match ring with
  | [r0; r1; r2; r3; r4; r5; r6; r7] =>
      [[shown_corner f r7; shown_edge f r0; shown_corner f r1];
       [shown_edge f r6; f; shown_edge f r2];
       [shown_corner f r5; shown_edge f r4; shown_corner f r3]]
  | _ => []
  end.

Definition ring_of (self : RubicsCube) (f : Z) : Side :=
  match _side_get self f with
  | Ok ring => ring
  | Raise _ => []
  end.

(** A printed grid turned a quarter clockwise, and counter-clockwise. *)
Definition quarter_turn (grid : list (list Z)) : list (list Z) :=
  match grid with
  | [[a; b; c]; [d; e; f]; [g; h; i]] => [[g; d; a]; [h; e; b]; [i; f; c]]
  | _ => grid
  end.

Definition quarter_turn_back (grid : list (list Z)) : list (list Z) :=
  match grid with
  | [[a; b; c]; [d; e; f]; [g; h; i]] => [[c; f; i]; [b; e; h]; [a; d; g]]
  | _ => grid
  end.

(** A run of calls as turns. *)
Fixpoint turns (calls : list (Z * Z)) (self : RubicsCube) : RubicsCube :=
  match calls with
  | [] => self
  | (f, d) :: calls' => turns calls' (turn d f self)
  end.

(** A method called [n] times in a row, stopping at the first call that
    raises. *)
Fixpoint times (n : nat) (m : method unit) : method unit :=
  fun self =>
    match n with
    | O => (Ok tt, self)
    | S n' =>
        match m self with
        | (Ok _, self') => times n' m self'
        | (Raise e, self') => (Raise e, self')
        end
    end.

(** A cell whose stickers are bound to valid, distinct faces. *)
Definition well_bound (cell : Cell) : Prop :=
  match cell with
  | [t; _; _; x3; x4; x5; x6] =>
      if t =? CUBE_EDGE then valid_side x3 /\ valid_side x4 /\ x3 <> x4
      else if t =? CUBE_CORNER then
        valid_side x4 /\ valid_side x5 /\ valid_side x6 /\ x4 <> x5 /\ x4 <> x6 /\ x5 <> x6
      else t = CUBE_ID
  | _ => False
  end.

(** One square of a printed grid counted for a colour. *)
Definition hit (color x : Z) : nat := if color =? x then 1%nat else 0%nat.

(** * Properties *)

(** ** Python indexing on lists of known length *)

Lemma index_nonneg (n : nat) (i : Z) (k : nat) :
  0 <= i -> Py.index n i = Some k -> k = Z.to_nat i /\ (k < n)%nat.
Proof.
  unfold Py.index. intros Hi.
  destruct (0 <=? i) eqn:E0; [|lia].
  destruct (i <? Z.of_nat n) eqn:E1; simpl.
  - intros [= <-]. lia.
  - replace (i <? 0) with false by lia. simpl. discriminate.
Qed.

Lemma nth_error_update_same {A : Type} (l : list A) (k : nat) (v : A) :
  (k < length l)%nat -> nth_error (Py.update l k v) k = Some v.
Proof.
  revert k; induction l as [|h t IH]; intros [|k] H; simpl in *; try lia; trivial.
  apply IH; lia.
Qed.

Lemma nth_error_update_other {A : Type} (l : list A) (k j : nat) (v : A) :
  j <> k -> nth_error (Py.update l k v) j = nth_error l j.
Proof.
  revert k j; induction l as [|h t IH]; intros [|k] [|j] H; simpl; trivial; try lia.
  apply IH; lia.
Qed.

Lemma getitem_nonneg {A : Type} (l : list A) (i : Z) (x : A) :
  0 <= i -> Py.getitem l i = Ok x -> nth_error l (Z.to_nat i) = Some x.
Proof.
  unfold Py.getitem. intros Hi.
  destruct (Py.index (length l) i) as [k|] eqn:E; [|discriminate].
  apply index_nonneg in E as [-> _]; trivial.
  destruct (nth_error l (Z.to_nat i)); [now intros [= ->] | discriminate].
Qed.

Lemma setitem_nonneg {A : Type} (l l' : list A) (i : Z) (v : A) :
  0 <= i -> Py.setitem l i v = Ok l' ->
  l' = Py.update l (Z.to_nat i) v /\ (Z.to_nat i < length l)%nat.
Proof.
  unfold Py.setitem. intros Hi.
  destruct (Py.index (length l) i) as [k|] eqn:E; [|discriminate].
  apply index_nonneg in E as [-> Hk]; trivial.
  intros [= <-]. auto.
Qed.

(** ** The colour cycles (C5) *)

Ltac case_eqb :=
  match goal with
  | |- context [Z.eqb ?a ?b] => destruct (Z.eqb_spec a b); subst
  end.

Ltac unfold_colors :=
  unfold CUBE_WHITE, CUBE_YELLOW, CUBE_RED, CUBE_GREEN, CUBE_ORANGE, CUBE_BLUE,
    ROTATE_CLOCKWISE, ROTATE_COUNTER in *.

Lemma cycle_inverse (axis c c' : Z) :
  _side_edge_face_get ROTATE_CLOCKWISE axis c = Ok c' ->
  _side_edge_face_get ROTATE_COUNTER axis c' = Ok c.
Proof.
  unfold _side_edge_face_get, _side_edge_yellow, _side_edge_orange, _side_edge_blue,
    _side_edge_white, _side_edge_red, _side_edge_green.
  unfold_colors. cbn. intros H.
  repeat match type of H with
    | context [Z.eqb ?a ?b] => destruct (Z.eqb_spec a b); subst; cbn in H
    end; try discriminate; injection H as <-; reflexivity.
Qed.

(** C5. The clockwise colour cycle of the White axis is
    Red -> Green -> Orange -> Blue -> Red, that of the Red axis is
    White -> Blue -> Yellow -> Green -> White.  For every one of the six
    axes and every colour [c] of that axis's cycle (the four faces next
    to the axis) the clockwise map returns, and it runs through a cycle of
    four distinct colours of the cycle, [c -> n1 -> n2 -> n3 -> c]; the
    counter-clockwise map returns on each of them and is the inverse
    permutation, [n1 -> c], [n2 -> n1], [n3 -> n2], [c -> n3].  Moreover,
    for any axis and colour values, whenever the clockwise map returns the
    counter-clockwise map takes its result back. *)
Theorem color_cycles (axis c c' : Z) :
  (_side_edge_face_get ROTATE_CLOCKWISE CUBE_WHITE CUBE_RED = Ok CUBE_GREEN /\
   _side_edge_face_get ROTATE_CLOCKWISE CUBE_WHITE CUBE_GREEN = Ok CUBE_ORANGE /\
   _side_edge_face_get ROTATE_CLOCKWISE CUBE_WHITE CUBE_ORANGE = Ok CUBE_BLUE /\
   _side_edge_face_get ROTATE_CLOCKWISE CUBE_WHITE CUBE_BLUE = Ok CUBE_RED) /\
  (_side_edge_face_get ROTATE_CLOCKWISE CUBE_RED CUBE_WHITE = Ok CUBE_BLUE /\
   _side_edge_face_get ROTATE_CLOCKWISE CUBE_RED CUBE_BLUE = Ok CUBE_YELLOW /\
   _side_edge_face_get ROTATE_CLOCKWISE CUBE_RED CUBE_YELLOW = Ok CUBE_GREEN /\
   _side_edge_face_get ROTATE_CLOCKWISE CUBE_RED CUBE_GREEN = Ok CUBE_WHITE) /\
  (_side_edge_face_get ROTATE_CLOCKWISE axis c = Ok c' ->
   _side_edge_face_get ROTATE_COUNTER axis c' = Ok c) /\
  (valid_side axis -> adjacent axis c ->
   exists n1 n2 n3,
     (_side_edge_face_get ROTATE_CLOCKWISE axis c = Ok n1 /\
      _side_edge_face_get ROTATE_CLOCKWISE axis n1 = Ok n2 /\
      _side_edge_face_get ROTATE_CLOCKWISE axis n2 = Ok n3 /\
      _side_edge_face_get ROTATE_CLOCKWISE axis n3 = Ok c) /\
     (_side_edge_face_get ROTATE_COUNTER axis n1 = Ok c /\
      _side_edge_face_get ROTATE_COUNTER axis n2 = Ok n1 /\
      _side_edge_face_get ROTATE_COUNTER axis n3 = Ok n2 /\
      _side_edge_face_get ROTATE_COUNTER axis c = Ok n3) /\
     (adjacent axis n1 /\ adjacent axis n2 /\ adjacent axis n3) /\
     (n1 <> c /\ n2 <> c /\ n3 <> c /\ n1 <> n2 /\ n1 <> n3 /\ n2 <> n3)).
Proof.
  split; [|split; [|split]]; [repeat split .. | apply cycle_inverse |].
  intros Hax (Hc & Hcf & Hco).
  pose (cw := fun x => match _side_edge_face_get ROTATE_CLOCKWISE axis x with
                       | Ok y => y
                       | Raise _ => x
                       end).
  exists (cw c), (cw (cw c)), (cw (cw (cw c))). subst cw.
  unfold valid_side in Hax, Hc. unfold_colors.
  assert (axis = 1 \/ axis = 2 \/ axis = 3 \/ axis = 4 \/ axis = 5 \/ axis = 6) as Ha by lia.
  assert (c = 1 \/ c = 2 \/ c = 3 \/ c = 4 \/ c = 5 \/ c = 6) as Hcc by lia.
  clear Hax Hc.
  destruct Ha as [-> | [-> | [-> | [-> | [-> | ->]]]]];
    destruct Hcc as [-> | [-> | [-> | [-> | [-> | ->]]]]];
    try (exfalso; apply Hcf; reflexivity); try (exfalso; apply Hco; reflexivity);
    repeat split; vm_compute; (reflexivity || discriminate).
Qed.

Lemma color_cycles_witness :
  exists n1 n2 n3,
    (_side_edge_face_get ROTATE_CLOCKWISE CUBE_BLUE CUBE_WHITE = Ok n1 /\
     _side_edge_face_get ROTATE_CLOCKWISE CUBE_BLUE n1 = Ok n2 /\
     _side_edge_face_get ROTATE_CLOCKWISE CUBE_BLUE n2 = Ok n3 /\
     _side_edge_face_get ROTATE_CLOCKWISE CUBE_BLUE n3 = Ok CUBE_WHITE) /\
    (_side_edge_face_get ROTATE_COUNTER CUBE_BLUE n1 = Ok CUBE_WHITE /\
     _side_edge_face_get ROTATE_COUNTER CUBE_BLUE n2 = Ok n1 /\
     _side_edge_face_get ROTATE_COUNTER CUBE_BLUE n3 = Ok n2 /\
     _side_edge_face_get ROTATE_COUNTER CUBE_BLUE CUBE_WHITE = Ok n3) /\
    (adjacent CUBE_BLUE n1 /\ adjacent CUBE_BLUE n2 /\ adjacent CUBE_BLUE n3) /\
    (n1 <> CUBE_WHITE /\ n2 <> CUBE_WHITE /\ n3 <> CUBE_WHITE /\
     n1 <> n2 /\ n1 <> n3 /\ n2 <> n3).
Proof.
  apply (proj2 (proj2 (proj2 (color_cycles CUBE_BLUE CUBE_WHITE CUBE_WHITE)))).
  - unfold valid_side. vm_compute. intuition discriminate.
  - unfold adjacent, valid_side. vm_compute. intuition discriminate.
Defined.

(** ** Lists of known length *)

Lemma length8 {A : Type} (l : list A) :
  length l = 8%nat -> exists a0 a1 a2 a3 a4 a5 a6 a7, l = [a0; a1; a2; a3; a4; a5; a6; a7].
Proof.
  intros H. do 9 (destruct l as [|? l]; [try discriminate H|]); try discriminate H.
  repeat eexists.
Qed.

Lemma length3 {A : Type} (l : list A) :
  length l = 3%nat -> exists a0 a1 a2, l = [a0; a1; a2].
Proof.
  intros H. do 4 (destruct l as [|? l]; [try discriminate H|]); try discriminate H.
  repeat eexists.
Qed.

Lemma valid_side_cases (f : Z) :
  valid_side f ->
  f = CUBE_WHITE \/ f = CUBE_YELLOW \/ f = CUBE_RED \/ f = CUBE_GREEN \/ f = CUBE_ORANGE \/ f = CUBE_BLUE.
Proof. unfold valid_side. unfold_colors. lia. Qed.

Ltac each_side H :=
  apply valid_side_cases in H;
  destruct H as [-> | [-> | [-> | [-> | [-> | ->]]]]].

Lemma shaped_spine (c : Cube) :
  shaped c ->
  exists t0 t1 t2 t3 t4 t5 t6 t7 m0 m1 m2 m3 m4 m5 m6 m7 b0 b1 b2 b3 b4 b5 b6 b7 : Cell,
    c = [[t0; t1; t2; t3; t4; t5; t6; t7];
         [m0; m1; m2; m3; m4; m5; m6; m7];
         [b0; b1; b2; b3; b4; b5; b6; b7]].
Proof.
  intros [H3 H8]. destruct (length3 _ H3) as (t & m & b & ->).
  inversion H8 as [|? ? Ht H8']; subst. inversion H8' as [|? ? Hm H8'']; subst.
  inversion H8'' as [|? ? Hb _]; subst.
  destruct (length8 _ Ht) as (t0 & t1 & t2 & t3 & t4 & t5 & t6 & t7 & ->).
  destruct (length8 _ Hm) as (m0 & m1 & m2 & m3 & m4 & m5 & m6 & m7 & ->).
  destruct (length8 _ Hb) as (b0 & b1 & b2 & b3 & b4 & b5 & b6 & b7 & ->).
  repeat eexists.
Qed.

(** C1. For each of the six faces, writing back the ring just read
    ([_side_put f (_side_get f)]) leaves the whole object, hence every
    cell of the three layers, unchanged. *)
Theorem side_put_side_get_roundtrip (self : RubicsCube) (f : Z) :
  valid_side f -> shaped (_cube self) ->
  exists side, _side_get self f = Ok side /\ _side_put f side self = (Ok tt, self).
Proof.
  intros Hf Hs. destruct self as [cube solved]. simpl in Hs.
  destruct (shaped_spine _ Hs)
    as (t0 & t1 & t2 & t3 & t4 & t5 & t6 & t7 & m0 & m1 & m2 & m3 & m4 & m5 & m6 & m7
        & b0 & b1 & b2 & b3 & b4 & b5 & b6 & b7 & ->).
  each_side Hf; eexists; (split; [vm_compute; reflexivity | vm_compute; reflexivity]).
Qed.

(** The other half of the inverse: reading the ring after a put returns
    the ring that was put. *)
Lemma side_get_side_put (self : RubicsCube) (f : Z) (side : Side) :
  valid_side f -> shaped (_cube self) -> length side = 8%nat ->
  exists self', _side_put f side self = (Ok tt, self') /\ _side_get self' f = Ok side.
Proof.
  intros Hf Hs Hl. destruct self as [cube solved]. simpl in Hs.
  destruct (shaped_spine _ Hs)
    as (t0 & t1 & t2 & t3 & t4 & t5 & t6 & t7 & m0 & m1 & m2 & m3 & m4 & m5 & m6 & m7
        & b0 & b1 & b2 & b3 & b4 & b5 & b6 & b7 & ->).
  destruct (length8 _ Hl) as (a0 & a1 & a2 & a3 & a4 & a5 & a6 & a7 & ->).
  each_side Hf; eexists; (split; [vm_compute; reflexivity | vm_compute; reflexivity]).
Qed.

Lemma init_shaped : shaped (_cube __init__).
Proof. split; [reflexivity | repeat constructor]. Qed.

Lemma side_put_side_get_roundtrip_witness :
  exists side, _side_get __init__ CUBE_GREEN = Ok side /\
               _side_put CUBE_GREEN side __init__ = (Ok tt, __init__).
Proof.
  apply (side_put_side_get_roundtrip __init__ CUBE_GREEN).
  - unfold valid_side. vm_compute. intuition discriminate.
  - exact init_shaped.
Defined.

(** C6. The position pass shifts the ring of eight cells by two slots:
    clockwise the cell at clock position [p] is found, unmodified, at
    position [(p + 2) mod 8] afterwards, counter-clockwise at
    [(p - 2) mod 8]; this holds for all eight positions. *)
Theorem rotate_colors_shifts_by_two (side_P : Side) (side_id_P p : Z) :
  length side_P = 8%nat -> 0 <= p < 8 ->
  (exists side', _rotate_colors ROTATE_CLOCKWISE side_id_P side_P = Ok side' /\
                 length side' = 8%nat /\
                 Py.getitem side' ((p + 2) mod 8) = Py.getitem side_P p) /\
  (exists side', _rotate_colors ROTATE_COUNTER side_id_P side_P = Ok side' /\
                 length side' = 8%nat /\
                 Py.getitem side' ((p - 2) mod 8) = Py.getitem side_P p).
Proof.
  intros H Hp. destruct (length8 _ H) as (a0 & a1 & a2 & a3 & a4 & a5 & a6 & a7 & ->).
  assert (p = 0 \/ p = 1 \/ p = 2 \/ p = 3 \/ p = 4 \/ p = 5 \/ p = 6 \/ p = 7) as Hc by lia.
  split; eexists; (split; [vm_compute; reflexivity|]); (split; [reflexivity|]);
    destruct Hc as [-> | [-> | [-> | [-> | [-> | [-> | [-> | ->]]]]]]]; reflexivity.
Qed.

Lemma rotate_colors_shifts_by_two_witness :
  exists side', _rotate_colors ROTATE_CLOCKWISE CUBE_RED
                  [_CUBE_WR; _CUBE_WBR; _CUBE_BRM; _CUBE_YRB; _CUBE_YR; _CUBE_YGR; _CUBE_RGM; _CUBE_WRG] = Ok side' /\
                length side' = 8%nat /\
                Py.getitem side' ((7 + 2) mod 8) = Ok _CUBE_WRG.
Proof.
  apply (rotate_colors_shifts_by_two
           [_CUBE_WR; _CUBE_WBR; _CUBE_BRM; _CUBE_YRB; _CUBE_YR; _CUBE_YGR; _CUBE_RGM; _CUBE_WRG]
           CUBE_RED 7); [reflexivity | lia].
Defined.

(** ** The frame of [_side_put] (C10) *)

Lemma cube_write_frame (cube cube' : Cube) (L f pos i : Z) (side : Side) :
  cube_write cube L f pos side = Ok cube' ->
  0 <= L -> side_index f pos = Ok i -> 0 <= i ->
  forall l k, (l, k) <> (Z.to_nat L, Z.to_nat i) -> slot_at cube' l k = slot_at cube l k.
Proof.
  unfold cube_write. intros H HL Hi Hi0 l k Hne.
  destruct (Py.getitem side pos) as [cell|]; [|discriminate]. cbn [bind] in H.
  destruct (Py.getitem cube L) as [layer|] eqn:Eg; [|discriminate]. cbn [bind] in H.
  rewrite Hi in H. cbn [bind] in H.
  destruct (Py.setitem layer i cell) as [layer'|] eqn:Es; [|discriminate]. cbn [bind] in H.
  apply getitem_nonneg in Eg; trivial.
  apply setitem_nonneg in Es as [-> _]; trivial.
  apply setitem_nonneg in H as [-> Hlt]; trivial.
  unfold slot_at.
  destruct (Nat.eq_dec l (Z.to_nat L)) as [->|Hl].
  - rewrite nth_error_update_same, Eg by trivial.
    apply nth_error_update_other. congruence.
  - now rewrite nth_error_update_other.
Qed.

Lemma cube_writes_frame (f : Z) (side : Side) (ws : list (Z * Z)) :
  forall cube cube',
    cube_writes cube f side ws = (Ok tt, cube') ->
    Forall (fun w => 0 <= fst w /\ exists i, side_index f (snd w) = Ok i /\ 0 <= i) ws ->
    forall l k, ~ In (l, k) (write_cells f ws) -> slot_at cube' l k = slot_at cube l k.
Proof.
  induction ws as [|[L pos] ws IH]; intros cube cube' H Hws l k Hnin.
  - now injection H as <-.
  - inversion Hws as [|? ? (HL & i & Hi & Hi0) Hws']; subst. simpl in HL, Hi.
    simpl in H. destruct (cube_write cube L f pos side) as [cube1|] eqn:E; [|discriminate].
    simpl in Hnin. rewrite Hi in Hnin. simpl in Hnin.
    rewrite (IH _ _ H Hws') by tauto.
    eapply cube_write_frame; eauto; intros Heq; apply Hnin; left; now symmetry.
Qed.

Lemma put_order_in_range (f : Z) :
  valid_side f ->
  Forall (fun w => 0 <= fst w /\ exists i, side_index f (snd w) = Ok i /\ 0 <= i) (put_order f).
Proof.
  intros Hf.
  each_side Hf;
    match goal with
    | |- Forall _ ?ws => let l := eval vm_compute in ws in change ws with l
    end;
    repeat (apply Forall_cons;
            [split; [simpl; lia | eexists; split; [vm_compute; reflexivity | lia]] |]);
    apply Forall_nil.
Qed.

Lemma side_put_frame (f : Z) (side : Side) (self self' : RubicsCube) :
  valid_side f -> _side_put f side self = (Ok tt, self') ->
  _cube_solved self' = _cube_solved self /\
  forall l k, ~ In (l, k) (ring_cells f) -> slot_at (_cube self') l k = slot_at (_cube self) l k.
Proof.
  unfold _side_put. intros Hf H.
  destruct (cube_writes (_cube self) f side (put_order f)) as [r cube'] eqn:E.
  injection H as -> <-. split; [reflexivity|]. simpl.
  eapply cube_writes_frame; eauto using put_order_in_range.
Qed.

Lemma ring_cells_length (f : Z) : valid_side f -> length (ring_cells f) = 8%nat.
Proof. intros Hf. each_side Hf; reflexivity. Qed.

(** [RotateSide] changes the object only through its final [_side_put]. *)
Lemma RotateSide_is_a_put (f d : Z) (self self' : RubicsCube) (r : result unit) :
  RotateSide f d self = (r, self') ->
  self' = self \/ exists side, _side_put f side self = (r, self').
Proof.
  unfold RotateSide. intros H.
  destruct (_side_get self f) as [s0|]; [|injection H as _ <-; now left].
  destruct (_rotate_faces d f s0) as [s1|]; [|injection H as _ <-; now left].
  destruct (_rotate_colors d f s1) as [s2|]; [|injection H as _ <-; now left].
  right. now exists s2.
Qed.

(** C10. A call [RotateSide f d] that returns, for a valid face [f],
    writes only the eight places of the ring of [f]: every other place of
    the three layers holds the cell it held before, and [_cube_solved] is
    unchanged. *)
Theorem RotateSide_frame (self self' : RubicsCube) (f d : Z) :
  valid_side f -> RotateSide f d self = (Ok tt, self') ->
  length (ring_cells f) = 8%nat /\
  _cube_solved self' = _cube_solved self /\
  forall l k, ~ In (l, k) (ring_cells f) -> slot_at (_cube self') l k = slot_at (_cube self) l k.
Proof.
  intros Hf H. split; [now apply ring_cells_length|].
  apply RotateSide_is_a_put in H as [-> | [side H]].
  - auto.
  - eapply side_put_frame; eauto.
Qed.

Lemma RotateSide_frame_witness :
  length (ring_cells CUBE_RED) = 8%nat /\
  _cube_solved (snd (RotateSide CUBE_RED ROTATE_CLOCKWISE __init__)) = _cube_solved __init__ /\
  forall l k, ~ In (l, k) (ring_cells CUBE_RED) ->
    slot_at (_cube (snd (RotateSide CUBE_RED ROTATE_CLOCKWISE __init__))) l k
    = slot_at (_cube __init__) l k.
Proof.
  apply (RotateSide_frame __init__ _ CUBE_RED ROTATE_CLOCKWISE).
  - unfold valid_side. vm_compute. intuition discriminate.
  - vm_compute. reflexivity.
Defined.

(** Evaluate list accesses at literal indices, leaving integer tests and
    arithmetic on unknown values alone. *)
Ltac py_eval := cbv -[Z.eqb Z.gtb Z.add Z.sub].

(** ** Failed face-binding lookups (C8) *)

(** The two colour reads abort when no sticker of the cell is bound to the
    probed face. *)
Lemma side_edge_color_get_unbound (f idx : Z) (side : Side) (t c0 c1 f0 f1 x y : Z) :
  Py.getitem side idx = Ok [t; c0; c1; f0; f1; x; y] -> f <> f0 -> f <> f1 ->
  _side_edge_color_get f side idx = Raise (SystemExit "illegal edge face").
Proof.
  intros H H0 H1. unfold _side_edge_color_get, side_cell_item. rewrite H. py_eval.
  destruct (Z.eqb_spec f f0); [contradiction|].
  destruct (Z.eqb_spec f f1); [contradiction|]. reflexivity.
Qed.

Lemma side_corner_color_get_unbound (f idx : Z) (side : Side) (t c0 c1 c2 g0 g1 g2 : Z) :
  Py.getitem side idx = Ok [t; c0; c1; c2; g0; g1; g2] -> f <> g0 -> f <> g1 -> f <> g2 ->
  _side_corner_color_get f side idx = Raise (SystemExit "illegal corner face").
Proof.
  intros H H0 H1 H2. unfold _side_corner_color_get, side_cell_item. rewrite H. py_eval.
  destruct (Z.eqb_spec f g0); [contradiction|].
  destruct (Z.eqb_spec f g1); [contradiction|].
  destruct (Z.eqb_spec f g2); [contradiction|]. reflexivity.
Qed.

(** The remap step does not: an edge bound to neither face, and a corner
    with no sticker on the edge's lateral face, are passed over. *)
Lemma rotate_face_edge_unbound (f d : Z) (cl cr : Cell) (t c0 c1 f0 f1 x y : Z) :
  f0 <> f -> f1 <> f ->
  _rotate_face_edge f d cl [t; c0; c1; f0; f1; x; y] cr = Ok (cl, [t; c0; c1; f0; f1; x; y], cr).
Proof.
  intros H0 H1. py_eval.
  destruct (Z.eqb_spec f0 f); [contradiction|].
  destruct (Z.eqb_spec f1 f); [contradiction|]. reflexivity.
Qed.

Lemma plus_cube_delay_unbound (old i : Z) (ec : Cell) (t c0 c1 c2 g0 g1 g2 : Z) :
  g0 <> old -> g1 <> old -> g2 <> old ->
  _rotate_face_edge_plus_cube_delay [t; c0; c1; c2; g0; g1; g2] old ec i
  = Ok [t; c0; c1; c2; g0; g1; g2].
Proof.
  intros H0 H1 H2. py_eval.
  destruct (Z.eqb_spec g0 old); [contradiction|].
  destruct (Z.eqb_spec g1 old); [contradiction|].
  destruct (Z.eqb_spec g2 old); [contradiction|]. reflexivity.
Qed.

(** C8. On the new cube, probed for the face [-1] that no sticker is
    bound to: the colour read of the edge aborts, but the remap step
    [_rotate_face_edge] returns the three cells unchanged, and
    [RotateSide (-1) ROTATE_CLOCKWISE] returns normally having rotated the
    cells it read (index [-1] of [_SIDE_INDEX] is the row of Blue). *)
Theorem failed_lookup_in_RotateSide_is_silent :
  _side_edge_color_get (-1) [_CUBE_WB] 0 = Raise (SystemExit "illegal edge face") /\
  _rotate_face_edge (-1) ROTATE_CLOCKWISE _CUBE_WBR _CUBE_WB _CUBE_WOB
  = Ok (_CUBE_WBR, _CUBE_WB, _CUBE_WOB) /\
  fst (RotateSide (-1) ROTATE_CLOCKWISE __init__) = Ok tt /\
  slot_at (_cube (snd (RotateSide (-1) ROTATE_CLOCKWISE __init__))) 0 6 = Some _CUBE_BRM /\
  slot_at (_cube __init__) 0 6 = Some _CUBE_WB.
Proof. vm_compute. repeat split. Qed.

(** ** Caller misuse (C9) *)

Lemma side_index_invalid (f pos : Z) :
  f = 0 \/ 6 < f \/ f < -6 -> exists e, side_index f pos = Raise e.
Proof.
  intros H. unfold side_index, Py.getitem, Py.index.
  change (Z.of_nat (length _SIDE_INDEX)) with 7.
  destruct (Z.eq_dec f 0) as [->|]; [eexists; reflexivity|].
  destruct (Z.eq_dec f (-7)) as [->|]; [eexists; reflexivity|].
  replace ((0 <=? f) && (f <? 7)) with false by lia.
  replace ((f <? 0) && (- (7) <=? f)) with false by lia.
  eexists; reflexivity.
Qed.

Lemma side_get_invalid (self : RubicsCube) (f : Z) :
  f = 0 \/ 6 < f \/ f < -6 -> exists e, _side_get self f = Raise e.
Proof.
  intros H. unfold _side_get.
  destruct (Py.getitem (_cube self) CUBE_TOP) as [top|]; [|eexists; reflexivity].
  destruct (Py.getitem (_cube self) CUBE_MIDDLE) as [mid|]; [|eexists; reflexivity].
  destruct (Py.getitem (_cube self) CUBE_BOTTOM) as [bot|]; [|eexists; reflexivity].
  cbn [bind].
  destruct (side_index_invalid f _SIDE_INDEX_0000 H) as [e He].
  destruct (f =? CUBE_WHITE); [|destruct (f =? CUBE_YELLOW)];
    unfold side_read at 1; rewrite He; eexists; reflexivity.
Qed.

Lemma side_edge_face_get_direction (d f c : Z) :
  d <> ROTATE_CLOCKWISE -> _side_edge_face_get d f c = _side_edge_face_get ROTATE_COUNTER f c.
Proof.
  intros H. unfold _side_edge_face_get, _side_edge_yellow, _side_edge_orange, _side_edge_blue,
    _side_edge_white, _side_edge_red, _side_edge_green.
  apply Z.eqb_neq in H. rewrite H. reflexivity.
Qed.

Lemma rotate_face_edge_direction (d f : Z) (cl e cr : Cell) :
  d <> ROTATE_CLOCKWISE -> _rotate_face_edge f d cl e cr = _rotate_face_edge f ROTATE_COUNTER cl e cr.
Proof.
  intros H. unfold _rotate_face_edge, rotate_face_edge_arm.
  destruct (Py.getitem e CUBE_EDGE_FACE_0) as [f0|]; [|reflexivity]. cbn [bind].
  destruct (f0 =? f).
  - destruct (Py.getitem e CUBE_EDGE_FACE_1) as [v|]; [|reflexivity]. cbn [bind].
    now rewrite side_edge_face_get_direction.
  - destruct (Py.getitem e CUBE_EDGE_FACE_1) as [f1|]; [|reflexivity]. cbn [bind].
    destruct (f1 =? f); [|reflexivity].
    cbn [bind]. now rewrite side_edge_face_get_direction.
Qed.

Lemma rotate_faces_direction (d f : Z) (side : Side) :
  d <> ROTATE_CLOCKWISE -> _rotate_faces d f side = _rotate_faces ROTATE_COUNTER f side.
Proof.
  intros H. unfold _rotate_faces.
  destruct (_side_deepcopy side) as [[c1030 c0000 c0130 c0300 c0430 c0600 c0730 c0900]|];
    [|reflexivity].
  cbn [bind]. rewrite !(rotate_face_edge_direction d) by trivial.
  destruct (_rotate_face_edge f ROTATE_COUNTER c1030 c0000 c0130) as [[[a b] c]|]; [|reflexivity].
  cbn [bind]. rewrite !(rotate_face_edge_direction d) by trivial.
  destruct (_rotate_face_edge f ROTATE_COUNTER c c0300 c0430) as [[[a1 b1] c1]|]; [|reflexivity].
  cbn [bind]. rewrite !(rotate_face_edge_direction d) by trivial.
  destruct (_rotate_face_edge f ROTATE_COUNTER c1 c0600 c0730) as [[[a2 b2] c2]|]; [|reflexivity].
  cbn [bind]. rewrite !(rotate_face_edge_direction d) by trivial.
  reflexivity.
Qed.

Lemma rotate_colors_direction (d f : Z) (side : Side) :
  d <> ROTATE_CLOCKWISE -> _rotate_colors d f side = _rotate_colors ROTATE_COUNTER f side.
Proof.
  intros H. unfold _rotate_colors. apply Z.eqb_neq in H. now rewrite H.
Qed.

(** Any direction other than [ROTATE_CLOCKWISE] is taken as
    [ROTATE_COUNTER]. *)
Lemma RotateSide_direction (d f : Z) (self : RubicsCube) :
  d <> ROTATE_CLOCKWISE -> RotateSide f d self = RotateSide f ROTATE_COUNTER self.
Proof.
  intros H. unfold RotateSide.
  destruct (_side_get self f) as [s0|]; [|reflexivity].
  rewrite (rotate_faces_direction d) by trivial.
  destruct (_rotate_faces ROTATE_COUNTER f s0) as [s1|]; [|reflexivity].
  now rewrite (rotate_colors_direction d).
Qed.

(** C9, as the code has it.  A call of [RotateSide] with a face value
    that is 0, above 6 or below -6 raises while reading the ring and
    leaves the object as it was; the direction is not validated: every
    value other than [ROTATE_CLOCKWISE] acts as [ROTATE_COUNTER]. *)
Theorem RotateSide_misuse (self : RubicsCube) (f d : Z) :
  (f = 0 \/ 6 < f \/ f < -6 -> exists e, RotateSide f d self = (Raise e, self)) /\
  (d <> ROTATE_CLOCKWISE -> RotateSide f d self = RotateSide f ROTATE_COUNTER self).
Proof.
  split.
  - intros H. destruct (side_get_invalid self f H) as [e He].
    exists e. unfold RotateSide. now rewrite He.
  - apply RotateSide_direction.
Qed.

Lemma RotateSide_misuse_witness :
  (exists e, RotateSide 7 ROTATE_CLOCKWISE __init__ = (Raise e, __init__)) /\
  RotateSide CUBE_WHITE 2 __init__ = RotateSide CUBE_WHITE ROTATE_COUNTER __init__.
Proof.
  split.
  - apply (proj1 (RotateSide_misuse __init__ 7 ROTATE_CLOCKWISE)). lia.
  - apply (proj2 (RotateSide_misuse __init__ CUBE_WHITE 2)). discriminate.
Defined.

(** C9 as stated fails: a direction that is neither 0 nor 1 is accepted and
    the cube is rotated. *)
Lemma RotateSide_invalid_direction_rotates :
  fst (RotateSide CUBE_WHITE 2 __init__) = Ok tt /\
  _cube (snd (RotateSide CUBE_WHITE 2 __init__)) <> _cube __init__.
Proof. vm_compute. split; [reflexivity | discriminate]. Qed.

(** ** The face pass, cell by cell *)

Lemma holds_corner_length (a b c : Z) (cell : Cell) :
  holds (PCorner a b c) cell -> length cell = 7%nat.
Proof. inversion 1; reflexivity. Qed.

Lemma length7 {A : Type} (l : list A) :
  length l = 7%nat -> exists a0 a1 a2 a3 a4 a5 a6, l = [a0; a1; a2; a3; a4; a5; a6].
Proof.
  intros H. do 8 (destruct l as [|? l]; [try discriminate H|]); try discriminate H.
  repeat eexists.
Qed.

Lemma length_markv (cell : Cell) (old new : Z) :
  length cell = 7%nat -> length (markv cell old new) = 7%nat.
Proof.
  intros H. destruct (length7 _ H) as (t & c0 & c1 & c2 & g0 & g1 & g2 & ->).
  unfold markv. destruct (g0 =? old), (g1 =? old), (g2 =? old); reflexivity.
Qed.

Lemma plus_cube_delay_markv (cell ec : Cell) (old i new : Z) :
  length cell = 7%nat -> Py.getitem ec i = Ok new ->
  _rotate_face_edge_plus_cube_delay cell old ec i = Ok (markv cell old new).
Proof.
  intros H He. destruct (length7 _ H) as (t & c0 & c1 & c2 & g0 & g1 & g2 & ->).
  unfold _rotate_face_edge_plus_cube_delay. rewrite He. py_eval.
  destruct (g0 =? old); [reflexivity|].
  destruct (g1 =? old); [reflexivity|].
  destruct (g2 =? old); reflexivity.
Qed.

Lemma minus_cube_delay_unmarkv (cell : Cell) :
  length cell = 7%nat -> _face_minus_cube_delay cell = Ok (unmarkv cell).
Proof.
  intros H. destruct (length7 _ H) as (t & c0 & c1 & c2 & g0 & g1 & g2 & ->).
  py_eval.
  destruct (g0 >? 6); py_eval; (destruct (g1 >? 6); py_eval; (destruct (g2 >? 6); reflexivity)).
Qed.

(** Evaluate the list plumbing of the passes, keeping the cell-level
    functions folded. *)
Ltac py_step :=
  cbv -[Z.eqb Z.gtb Z.add Z.sub _side_edge_face_get _rotate_face_edge_plus_cube_delay
        _rotate_face_edge _face_minus_cube_delay markv unmarkv relabel_edge relabel_corner
        sigma lateral].

Lemma rotate_face_edge_holds (f d a b new : Z) (cl e cr : Cell) :
  holds (PEdge a b) e -> a = f \/ b = f -> a <> b ->
  _side_edge_face_get d f (lateral f a b) = Ok new ->
  length cl = 7%nat -> length cr = 7%nat ->
  _rotate_face_edge f d cl e cr
  = Ok (markv cl (lateral f a b) new, relabel_edge d f e, markv cr (lateral f a b) new).
Proof.
  intros He Hf Hab Hnew Hl Hr. inversion He as [? ? c0 c1 f0 f1 x y Hfaces| |]; subst.
  assert (lateral f a b <> f) as Hlat by (unfold lateral; destruct (Z.eqb_spec a f); lia).
  assert ((f0 = f /\ f1 = lateral f a b) \/ (f0 = lateral f a b /\ f1 = f)) as Hcase.
  { unfold lateral. destruct (Z.eqb_spec a f); lia. }
  set (old := lateral f a b) in *. clearbody old. clear Hfaces Hf Hab He.
  assert (sigma d f f = f) as Hsf by (unfold sigma; now rewrite Z.eqb_refl).
  assert (sigma d f old = new) as Hso.
  { unfold sigma. destruct (Z.eqb_spec old f); [contradiction|]. now rewrite Hnew. }
  unfold _rotate_face_edge, rotate_face_edge_arm.
  destruct Hcase as [[-> ->] | [-> ->]].
  - py_step. rewrite Z.eqb_refl. py_step. rewrite Hnew. py_step.
    rewrite !(plus_cube_delay_markv _ _ _ _ new) by (trivial; reflexivity).
    py_step. unfold relabel_edge. rewrite Hsf, Hso. reflexivity.
  - py_step. destruct (Z.eqb_spec old f); [contradiction|]. rewrite Z.eqb_refl.
    py_step. rewrite Hnew. py_step.
    rewrite !(plus_cube_delay_markv _ _ _ _ new) by (trivial; reflexivity).
    py_step. unfold relabel_edge. rewrite Hsf, Hso. reflexivity.
Qed.

(** ** The face pass on a ring *)

Ltac invert_Forall2 H :=
  repeat match type of H with
    | Forall2 _ (_ :: _) _ =>
        let x := fresh "r" in let l := fresh "l" in
        let Hx := fresh "Hr" in let Hl := fresh "Hl" in
        inversion H as [|? x ? l Hx Hl]; subst; clear H; rename Hl into H
    | Forall2 _ [] _ => inversion H; subst; clear H
    end.

Ltac solve_len :=
  repeat apply length_markv; eapply holds_corner_length; eassumption.

Ltac edge_step :=
  match goal with
  | |- context [_rotate_face_edge ?f ?d ?cl ?e ?cr] =>
      match goal with
      | H : holds (PEdge ?a ?b) e |- _ =>
          let n := eval vm_compute in (sigma d f (lateral f a b)) in
          rewrite (rotate_face_edge_holds f d a b n cl e cr H);
          [ | (left; reflexivity) || (right; reflexivity) | discriminate | reflexivity
            | solve_len | solve_len ]
      end
  end.

Ltac corner_cases H :=
  inversion H as [| ? ? ? ? ? ? ? ? ? Hin |]; subst; simpl in Hin;
  repeat (destruct Hin as [Hin | Hin]; [injection Hin as <- <- <-; vm_compute; reflexivity|]);
  contradiction.

Lemma rotate_faces_relabel (d f : Z) (side : Side) :
  valid_side f -> valid_direction d -> Forall2 holds (ring_pieces f) side ->
  _rotate_faces d f side = Ok (relabel_ring d f side).
Proof.
  intros Hf Hd H.
  each_side Hf; destruct Hd as [-> | ->];
    match type of H with
    | Forall2 _ ?ps _ => let l := eval vm_compute in ps in change ps with l in H
    end;
    invert_Forall2 H;
    unfold _rotate_faces; py_step;
    do 4 (edge_step; py_step);
    rewrite !minus_cube_delay_unmarkv by solve_len; py_step;
    unfold relabel_ring; repeat f_equal;
    match goal with
    | |- unmarkv (markv (markv ?r _ _) _ _) = _ =>
        match goal with Hr : holds _ r |- _ => corner_cases Hr end
    end.
Qed.

(** ** [RotateSide] on a cube that satisfies the invariant *)

(** Evaluate everything but the face pass and the relabelling of cells. *)
Ltac py_top :=
  cbv -[_rotate_faces relabel_edge relabel_corner sigma].

Ltac invert_cube H :=
  unfold cube_inv in H;
  match type of H with
  | Forall2 _ ?ps _ => let l := eval vm_compute in ps in change ps with l in H
  end;
  let Ht := fresh "Ht" in let Hm := fresh "Hm" in let Hb := fresh "Hb" in
  let H1 := fresh "H1" in let H2 := fresh "H2" in let H3 := fresh "H3" in
  inversion H as [|? ? ? ? Ht H1]; subst; clear H;
  inversion H1 as [|? ? ? ? Hm H2]; subst; clear H1;
  inversion H2 as [|? ? ? ? Hb H3]; subst; clear H2;
  inversion H3; subst; clear H3;
  invert_Forall2 Ht; invert_Forall2 Hm; invert_Forall2 Hb;
  repeat match goal with
    | Hc : holds (PCentre _) _ |- _ => inversion Hc; subst; clear Hc
    end.

Ltac ring_holds :=
  match goal with
  | |- Forall2 _ ?ps _ => let l := eval vm_compute in ps in change ps with l
  end;
  repeat (apply Forall2_cons; [assumption|]); apply Forall2_nil.

Lemma RotateSide_turn (d f : Z) (self : RubicsCube) :
  cube_inv (_cube self) -> valid_side f -> valid_direction d ->
  RotateSide f d self = (Ok tt, turn d f self).
Proof.
  intros H Hf Hd. destruct self as [cube solved]. simpl in H. invert_cube H.
  each_side Hf; destruct Hd as [-> | ->];
    unfold RotateSide, turn; py_top;
    (rewrite rotate_faces_relabel;
     [ | unfold valid_side; vm_compute; intuition discriminate
       | (left; reflexivity) || (right; reflexivity)
       | ring_holds ]);
    py_top; reflexivity.
Qed.

Ltac holds_relabel :=
  match goal with
  | |- holds _ (relabel_edge _ _ ?r) =>
      match goal with
      | Hr : holds _ r |- _ =>
          inversion Hr as [? ? ? ? ? ? ? ? Hc | |]; subst;
          destruct Hc as [[-> ->] | [-> ->]]; vm_compute;
          apply holds_edge; ((left; split; reflexivity) || (right; split; reflexivity))
      end
  | |- holds _ (relabel_corner _ _ ?r) =>
      match goal with
      | Hr : holds _ r |- _ =>
          inversion Hr as [| ? ? ? ? ? ? ? ? ? Hin |]; subst; simpl in Hin;
          repeat (destruct Hin as [Hin | Hin];
                  [injection Hin as <- <- <-; vm_compute; apply holds_corner; simpl; tauto|]);
          contradiction
      end
  | |- holds (PCentre _) _ => apply holds_centre
  | |- holds _ _ => assumption
  end.

Lemma turn_inv (d f : Z) (self : RubicsCube) :
  cube_inv (_cube self) -> valid_side f -> valid_direction d ->
  cube_inv (_cube (turn d f self)).
Proof.
  intros H Hf Hd. destruct self as [cube solved]. simpl in H. invert_cube H.
  each_side Hf; destruct Hd as [-> | ->];
    unfold turn; py_top; unfold cube_inv;
    match goal with
    | |- Forall2 _ ?ps _ => let l := eval vm_compute in ps in change ps with l
    end;
    repeat (apply Forall2_cons || apply Forall2_nil); holds_relabel.
Qed.

Lemma turn_solved (d f : Z) (self : RubicsCube) :
  _cube_solved (turn d f self) = _cube_solved self.
Proof.
  unfold turn. destruct (_side_get self f); [|reflexivity].
  destruct (_rotate_colors d f _); [|reflexivity].
  unfold _side_put. now destruct (cube_writes _ _ _ _).
Qed.

(** ** The algebra of turns *)

Ltac relabel_id :=
  match goal with
  | |- context [relabel_edge _ _ ?r] =>
      is_var r;
      match goal with
      | Hr : holds _ r |- _ =>
          inversion Hr as [? ? ? ? ? ? ? ? Hc | |]; subst;
          destruct Hc as [[-> ->] | [-> ->]]; vm_compute; reflexivity
      end
  | |- context [relabel_corner _ _ ?r] =>
      is_var r;
      match goal with
      | Hr : holds _ r |- _ =>
          inversion Hr as [| ? ? ? ? ? ? ? ? ? Hin |]; subst; simpl in Hin;
          repeat (destruct Hin as [Hin | Hin];
                  [injection Hin as <- <- <-; vm_compute; reflexivity|]);
          contradiction
      end
  | |- _ => reflexivity
  end.

Lemma turn_clockwise_then_counter (f : Z) (self : RubicsCube) :
  cube_inv (_cube self) -> valid_side f ->
  turn ROTATE_COUNTER f (turn ROTATE_CLOCKWISE f self) = self.
Proof.
  intros H Hf. destruct self as [cube solved]. simpl in H. invert_cube H.
  each_side Hf; unfold turn; py_top; repeat f_equal; relabel_id.
Qed.

Lemma turn_four_times (d f : Z) (self : RubicsCube) :
  cube_inv (_cube self) -> valid_side f -> valid_direction d ->
  turn d f (turn d f (turn d f (turn d f self))) = self.
Proof.
  intros H Hf Hd. destruct self as [cube solved]. simpl in H. invert_cube H.
  each_side Hf; destruct Hd as [-> | ->]; unfold turn; py_top; repeat f_equal; relabel_id.
Qed.

Lemma turn_white_yellow_commute (d1 d2 : Z) (self : RubicsCube) :
  cube_inv (_cube self) -> valid_direction d1 -> valid_direction d2 ->
  turn d2 CUBE_YELLOW (turn d1 CUBE_WHITE self) = turn d1 CUBE_WHITE (turn d2 CUBE_YELLOW self).
Proof.
  intros H H1 H2. destruct self as [cube solved]. simpl in H. invert_cube H.
  destruct H1 as [-> | ->]; destruct H2 as [-> | ->]; unfold turn; py_top; reflexivity.
Qed.

(** ** Reachable cubes never raise *)

Lemma init_inv : cube_inv (_cube __init__).
Proof.
  unfold cube_inv, layout. simpl _cube.
  repeat (apply Forall2_cons || apply Forall2_nil);
    vm_compute;
    first [ apply holds_centre
          | apply holds_edge; left; split; reflexivity
          | apply holds_corner; simpl; tauto ].
Qed.

Lemma reachable_inv (self : RubicsCube) : reachable self -> cube_inv (_cube self).
Proof.
  induction 1 as [|self self' f d _ IH Hf Hd Hr].
  - exact init_inv.
  - rewrite RotateSide_turn in Hr by trivial. injection Hr as <-. now apply turn_inv.
Qed.

Lemma reachable_solved (self : RubicsCube) :
  reachable self -> _cube_solved self = _cube_solved __init__.
Proof.
  induction 1 as [|self self' f d H IH Hf Hd Hr]; [reflexivity|].
  rewrite RotateSide_turn in Hr by auto using reachable_inv. injection Hr as <-.
  now rewrite turn_solved.
Qed.

(** [RotateSide] never raises on a reachable cube. *)
Lemma RotateSide_reachable (f d : Z) (self : RubicsCube) :
  reachable self -> valid_side f -> valid_direction d ->
  RotateSide f d self = (Ok tt, turn d f self) /\ reachable (turn d f self).
Proof.
  intros H Hf Hd.
  assert (RotateSide f d self = (Ok tt, turn d f self)) as E
      by auto using RotateSide_turn, reachable_inv.
  split; [exact E|]. eapply reachable_rotate; eauto.
Qed.

Lemma rotations_reachable (calls : list (Z * Z)) :
  Forall valid_call calls ->
  forall self, reachable self ->
    exists self', rotations calls self = (Ok tt, self') /\ reachable self'.
Proof.
  induction 1 as [|[f d] calls [Hf Hd] _ IH]; intros self Hs.
  - exists self. split; [reflexivity | assumption].
  - simpl in Hf, Hd. destruct (RotateSide_reachable f d self Hs Hf Hd) as [E Hs'].
    simpl. rewrite E. now apply IH.
Qed.

(** C2. On every cube reachable from the new cube, for every face and
    direction, four consecutive calls [RotateSide f d] all return and
    leave the object exactly as it was before the first. *)
Theorem four_rotations_restore (self : RubicsCube) (f d : Z) :
  reachable self -> valid_side f -> valid_direction d ->
  rotations [(f, d); (f, d); (f, d); (f, d)] self = (Ok tt, self).
Proof.
  intros Hs Hf Hd. simpl.
  destruct (RotateSide_reachable f d _ Hs Hf Hd) as [-> H1].
  destruct (RotateSide_reachable f d _ H1 Hf Hd) as [-> H2].
  destruct (RotateSide_reachable f d _ H2 Hf Hd) as [-> H3].
  destruct (RotateSide_reachable f d _ H3 Hf Hd) as [-> _].
  now rewrite turn_four_times by auto using reachable_inv.
Qed.

(** C3. On every cube reachable from the new cube, for every face,
    [RotateSide f ROTATE_CLOCKWISE] followed by
    [RotateSide f ROTATE_COUNTER] returns and leaves the object exactly as
    it was. *)
Theorem clockwise_then_counter_is_noop (self : RubicsCube) (f : Z) :
  reachable self -> valid_side f ->
  rotations [(f, ROTATE_CLOCKWISE); (f, ROTATE_COUNTER)] self = (Ok tt, self).
Proof.
  intros Hs Hf. simpl.
  destruct (RotateSide_reachable f ROTATE_CLOCKWISE _ Hs Hf) as [-> H1]; [now left|].
  destruct (RotateSide_reachable f ROTATE_COUNTER _ H1 Hf) as [-> _]; [now right|].
  now rewrite turn_clockwise_then_counter by auto using reachable_inv.
Qed.

(** C7. On every cube reachable from the new cube, for all directions
    [d1] and [d2], rotating White by [d1] then Yellow by [d2] and rotating
    Yellow by [d2] then White by [d1] both return, with the same cube. *)
Theorem white_yellow_commute (self : RubicsCube) (d1 d2 : Z) :
  reachable self -> valid_direction d1 -> valid_direction d2 ->
  exists self',
    rotations [(CUBE_WHITE, d1); (CUBE_YELLOW, d2)] self = (Ok tt, self') /\
    rotations [(CUBE_YELLOW, d2); (CUBE_WHITE, d1)] self = (Ok tt, self').
Proof.
  intros Hs H1 H2.
  assert (valid_side CUBE_WHITE) as Hw by (unfold valid_side; vm_compute; intuition discriminate).
  assert (valid_side CUBE_YELLOW) as Hy by (unfold valid_side; vm_compute; intuition discriminate).
  exists (turn d2 CUBE_YELLOW (turn d1 CUBE_WHITE self)). simpl.
  destruct (RotateSide_reachable CUBE_WHITE d1 _ Hs Hw H1) as [-> Hsw].
  destruct (RotateSide_reachable CUBE_YELLOW d2 _ Hsw Hy H2) as [-> _].
  destruct (RotateSide_reachable CUBE_YELLOW d2 _ Hs Hy H2) as [-> Hsy].
  destruct (RotateSide_reachable CUBE_WHITE d1 _ Hsy Hw H1) as [-> _].
  split; [reflexivity|].
  now rewrite turn_white_yellow_commute by auto using reachable_inv.
Qed.

Lemma valid_side_dec (f : Z) :
  (CUBE_WHITE <=? f) = true -> (f <=? CUBE_BLUE) = true -> valid_side f.
Proof. unfold valid_side. lia. Qed.

Lemma scramble_valid : Forall valid_call scramble.
Proof.
  repeat (apply Forall_cons;
          [split; [apply valid_side_dec; reflexivity
                  | (left; reflexivity) || (right; reflexivity)] |]).
  apply Forall_nil.
Qed.

Lemma scrambled_reachable : reachable scrambled.
Proof.
  destruct (rotations_reachable scramble scramble_valid __init__ reachable_init) as (s & E & Hs).
  unfold scrambled. now rewrite E.
Qed.

Lemma four_rotations_restore_witness :
  rotations [(CUBE_ORANGE, ROTATE_COUNTER); (CUBE_ORANGE, ROTATE_COUNTER);
             (CUBE_ORANGE, ROTATE_COUNTER); (CUBE_ORANGE, ROTATE_COUNTER)] scrambled
  = (Ok tt, scrambled).
Proof.
  apply (four_rotations_restore scrambled CUBE_ORANGE ROTATE_COUNTER).
  - exact scrambled_reachable.
  - apply valid_side_dec; reflexivity.
  - right; reflexivity.
Defined.

Lemma clockwise_then_counter_is_noop_witness :
  rotations [(CUBE_BLUE, ROTATE_CLOCKWISE); (CUBE_BLUE, ROTATE_COUNTER)] scrambled
  = (Ok tt, scrambled).
Proof.
  apply (clockwise_then_counter_is_noop scrambled CUBE_BLUE).
  - exact scrambled_reachable.
  - apply valid_side_dec; reflexivity.
Defined.

Lemma white_yellow_commute_witness :
  exists self',
    rotations [(CUBE_WHITE, ROTATE_CLOCKWISE); (CUBE_YELLOW, ROTATE_COUNTER)] scrambled
    = (Ok tt, self') /\
    rotations [(CUBE_YELLOW, ROTATE_COUNTER); (CUBE_WHITE, ROTATE_CLOCKWISE)] scrambled
    = (Ok tt, self').
Proof.
  apply (white_yellow_commute scrambled ROTATE_CLOCKWISE ROTATE_COUNTER).
  - exact scrambled_reachable.
  - left; reflexivity.
  - right; reflexivity.
Defined.

(** ** Sticker colours (C4) *)

Lemma stickers_relabel_edge (d f a b : Z) (cell : Cell) :
  holds (PEdge a b) cell -> stickers (relabel_edge d f cell) = stickers cell.
Proof. inversion 1; reflexivity. Qed.

Lemma stickers_relabel_corner (d f a b c : Z) (cell : Cell) :
  holds (PCorner a b c) cell -> stickers (relabel_corner d f cell) = stickers cell.
Proof. inversion 1; reflexivity. Qed.

Ltac forget_relabel :=
  repeat match goal with
    | Hr : holds (PEdge _ _) ?r |- context [stickers (relabel_edge ?d ?f ?r)] =>
        rewrite (stickers_relabel_edge d f _ _ r Hr)
    | Hr : holds (PCorner _ _ _) ?r |- context [stickers (relabel_corner ?d ?f ?r)] =>
        rewrite (stickers_relabel_corner d f _ _ _ r Hr)
    end.

Lemma turn_sticker_count (d f color : Z) (self : RubicsCube) :
  cube_inv (_cube self) -> valid_side f -> valid_direction d ->
  sticker_count (_cube (turn d f self)) color = sticker_count (_cube self) color.
Proof.
  intros H Hf Hd. destruct self as [cube solved]. simpl in H. invert_cube H.
  each_side Hf; destruct Hd as [-> | ->];
    match goal with
    | |- context [turn ?d ?f ?s] =>
        let t := eval cbv -[_rotate_faces relabel_edge relabel_corner sigma] in (turn d f s) in
        change (turn d f s) with t
    end;
    unfold sticker_count; cbn [_cube concat app map list_sum];
    forget_relabel; unfold list_sum; cbn [fold_right]; lia.
Qed.

Lemma reachable_counts (self : RubicsCube) : reachable self -> solved_counts (_cube self).
Proof.
  induction 1 as [|self self' f d H IH Hf Hd Hr].
  - vm_compute. repeat split.
  - destruct (RotateSide_reachable f d self H Hf Hd) as [E _].
    rewrite E in Hr. injection Hr as <-.
    unfold solved_counts. now rewrite !turn_sticker_count by auto using reachable_inv.
Qed.

(** C4, as the code has it.  Every finite sequence of valid
    [RotateSide] calls on the new cube returns, and the three layers then
    store 8 White and 8 Yellow stickers and 9 stickers each of Red, Green,
    Orange and Blue, as they do in the new cube. *)
Theorem sticker_colors_conserved (calls : list (Z * Z)) :
  Forall valid_call calls ->
  exists self,
    rotations calls __init__ = (Ok tt, self) /\
    sticker_count (_cube self) CUBE_WHITE = 8%nat /\
    sticker_count (_cube self) CUBE_YELLOW = 8%nat /\
    sticker_count (_cube self) CUBE_RED = 9%nat /\
    sticker_count (_cube self) CUBE_GREEN = 9%nat /\
    sticker_count (_cube self) CUBE_ORANGE = 9%nat /\
    sticker_count (_cube self) CUBE_BLUE = 9%nat.
Proof.
  intros H. destruct (rotations_reachable calls H __init__ reachable_init) as (self & E & Hs).
  exists self. split; [exact E|]. now apply reachable_counts.
Qed.

Lemma sticker_colors_conserved_witness :
  exists self,
    rotations scramble __init__ = (Ok tt, self) /\
    sticker_count (_cube self) CUBE_WHITE = 8%nat /\
    sticker_count (_cube self) CUBE_YELLOW = 8%nat /\
    sticker_count (_cube self) CUBE_RED = 9%nat /\
    sticker_count (_cube self) CUBE_GREEN = 9%nat /\
    sticker_count (_cube self) CUBE_ORANGE = 9%nat /\
    sticker_count (_cube self) CUBE_BLUE = 9%nat.
Proof.
  apply (sticker_colors_conserved scramble).
  repeat (apply Forall_cons;
          [split; [apply valid_side_dec; reflexivity
                  | (left; reflexivity) || (right; reflexivity)] |]).
  apply Forall_nil.
Defined.

(** C4 as stated fails: the new cube stores eight white stickers, not nine
    (no layer holds the white or the yellow centre). *)
Lemma new_cube_has_eight_white_stickers :
  rotations [] __init__ = (Ok tt, __init__) /\
  sticker_count (_cube __init__) CUBE_WHITE <> 9%nat.
Proof. split; [reflexivity | vm_compute; discriminate]. Qed.

(** ** Two scenarios of the test driver *)

(** One clockwise turn of Red leaves the cube unsolved. *)
Example one_turn_is_not_solved :
  ~ IsSolved (snd (RotateSide CUBE_RED ROTATE_CLOCKWISE __init__)).
Proof. unfold IsSolved. vm_compute. discriminate. Qed.

(** Winding Red once clockwise, Green twice counter-clockwise and Blue
    three times clockwise, then unwinding in reverse order with the
    directions flipped, gives the solved cube back. *)
Example wind_then_unwind_is_solved :
  let wind := [(CUBE_RED, ROTATE_CLOCKWISE);
               (CUBE_GREEN, ROTATE_COUNTER); (CUBE_GREEN, ROTATE_COUNTER);
               (CUBE_BLUE, ROTATE_CLOCKWISE); (CUBE_BLUE, ROTATE_CLOCKWISE);
               (CUBE_BLUE, ROTATE_CLOCKWISE)] in
  let unwind := [(CUBE_BLUE, ROTATE_COUNTER); (CUBE_BLUE, ROTATE_COUNTER);
                 (CUBE_BLUE, ROTATE_COUNTER);
                 (CUBE_GREEN, ROTATE_CLOCKWISE); (CUBE_GREEN, ROTATE_CLOCKWISE);
                 (CUBE_RED, ROTATE_COUNTER)] in
  rotations (wind ++ unwind) __init__ = (Ok tt, __init__) /\
  IsSolved (snd (rotations (wind ++ unwind) __init__)).
Proof. unfold IsSolved. vm_compute. split; reflexivity. Qed.

(** * Further properties *)

(** ** Runs of rotations *)

Lemma rotations_app (calls1 calls2 : list (Z * Z)) (self : RubicsCube) :
  rotations (calls1 ++ calls2) self
  = match rotations calls1 self with
    | (Ok _, self') => rotations calls2 self'
    | (Raise e, self') => (Raise e, self')
    end.
Proof.
  revert self. induction calls1 as [|[f d] calls1 IH]; intros self; simpl; [reflexivity|].
  destruct (RotateSide f d self) as [[[]|e] self']; [apply IH | reflexivity].
Qed.

Lemma turn_counter_then_clockwise (f : Z) (self : RubicsCube) :
  cube_inv (_cube self) -> valid_side f ->
  turn ROTATE_CLOCKWISE f (turn ROTATE_COUNTER f self) = self.
Proof.
  intros H Hf. destruct self as [cube solved]. simpl in H. invert_cube H.
  each_side Hf; unfold turn; py_top; repeat f_equal; relabel_id.
Qed.

Lemma turn_flip (d f : Z) (self : RubicsCube) :
  reachable self -> valid_side f -> valid_direction d ->
  turn (flip d) f (turn d f self) = self.
Proof.
  intros Hs Hf [-> | ->].
  - apply turn_clockwise_then_counter; auto using reachable_inv.
  - apply turn_counter_then_clockwise; auto using reachable_inv.
Qed.

Lemma valid_direction_flip (d : Z) : valid_direction d -> valid_direction (flip d).
Proof. intros [-> | ->]; [right | left]; reflexivity. Qed.

Lemma rotations_wind_unwind (calls : list (Z * Z)) (self : RubicsCube) :
  Forall valid_call calls -> reachable self ->
  rotations (calls ++ unwind calls) self = (Ok tt, self).
Proof.
  intros H. revert self. induction H as [|[f d] calls [Hf Hd] _ IH]; intros self Hs.
  - reflexivity.
  - simpl in Hf, Hd. unfold unwind. simpl. fold (unwind calls).
    destruct (RotateSide_reachable f d self Hs Hf Hd) as [-> Hs'].
    rewrite app_assoc, rotations_app, (IH _ Hs'). simpl.
    destruct (RotateSide_reachable f (flip d) (turn d f self)) as [-> _];
      auto using valid_direction_flip.
    now rewrite turn_flip.
Qed.

(** X1.  Winding any valid sequence of calls and then unwinding it, last call
    first and with the directions flipped as [TestRotateRandom] does,
    returns at every call and gives the cube back. *)
Theorem wind_then_unwind (calls : list (Z * Z)) (self : RubicsCube) :
  Forall valid_call calls -> reachable self ->
  rotations (calls ++ unwind calls) self = (Ok tt, self).
Proof. apply rotations_wind_unwind. Qed.

Lemma wind_then_unwind_witness :
  rotations (scramble ++ unwind scramble) scrambled = (Ok tt, scrambled).
Proof.
  apply (wind_then_unwind scramble scrambled).
  - exact scramble_valid.
  - exact scrambled_reachable.
Defined.

(** ** Repeating one call *)

Lemma four_turns (f d : Z) (self : RubicsCube) :
  reachable self -> valid_side f -> valid_direction d ->
  rotations (repeat (f, d) 4) self = (Ok tt, self).
Proof.
  intros Hs Hf Hd. simpl.
  destruct (RotateSide_reachable f d _ Hs Hf Hd) as [-> H1].
  destruct (RotateSide_reachable f d _ H1 Hf Hd) as [-> H2].
  destruct (RotateSide_reachable f d _ H2 Hf Hd) as [-> H3].
  destruct (RotateSide_reachable f d _ H3 Hf Hd) as [-> _].
  now rewrite turn_four_times by auto using reachable_inv.
Qed.

Lemma repeat_four_more (f d : Z) (n : nat) (self : RubicsCube) :
  reachable self -> valid_side f -> valid_direction d ->
  rotations (repeat (f, d) (4 + n)) self = rotations (repeat (f, d) n) self.
Proof.
  intros Hs Hf Hd. rewrite repeat_app, rotations_app.
  now rewrite four_turns.
Qed.

Lemma rotations_repeat_mod_4 (f d : Z) (n : nat) (self : RubicsCube) :
  reachable self -> valid_side f -> valid_direction d ->
  rotations (repeat (f, d) n) self = rotations (repeat (f, d) (n mod 4)) self.
Proof.
  intros Hs Hf Hd.
  rewrite (Nat.div_mod_eq n 4) at 1.
  generalize (n mod 4)%nat as r. generalize (n / 4)%nat as q.
  induction q as [|q IH]; intros r.
  - reflexivity.
  - replace (4 * S q + r)%nat with (4 + (4 * q + r))%nat by lia.
    rewrite repeat_four_more by trivial. apply IH.
Qed.

(** X2.  The cube after [n] equal calls depends on [n mod 4] only, and each of
    the calls returns. *)
Theorem repeated_call_counts_mod_4 (f d : Z) (n : nat) (self : RubicsCube) :
  reachable self -> valid_side f -> valid_direction d ->
  rotations (repeat (f, d) n) self = rotations (repeat (f, d) (n mod 4)) self /\
  fst (rotations (repeat (f, d) n) self) = Ok tt.
Proof.
  intros Hs Hf Hd. split; [now apply rotations_repeat_mod_4|].
  assert (Forall valid_call (repeat (f, d) n)) as Hv.
  { apply Forall_forall. intros c Hc. apply repeat_spec in Hc. subst c. now split. }
  destruct (rotations_reachable _ Hv self Hs) as (s' & -> & _). reflexivity.
Qed.

Lemma repeated_call_counts_mod_4_witness :
  rotations (repeat (CUBE_GREEN, ROTATE_CLOCKWISE) 10) scrambled
  = rotations (repeat (CUBE_GREEN, ROTATE_CLOCKWISE) (10 mod 4)) scrambled /\
  fst (rotations (repeat (CUBE_GREEN, ROTATE_CLOCKWISE) 10) scrambled) = Ok tt.
Proof.
  apply (repeated_call_counts_mod_4 CUBE_GREEN ROTATE_CLOCKWISE 10 scrambled).
  - exact scrambled_reachable.
  - apply valid_side_dec; reflexivity.
  - left; reflexivity.
Defined.

(** X3.  Three turns one way are one turn the other way. *)
Theorem three_turns_are_one_back (f d : Z) (self : RubicsCube) :
  reachable self -> valid_side f -> valid_direction d ->
  rotations [(f, d); (f, d); (f, d)] self = rotations [(f, flip d)] self /\
  fst (rotations [(f, flip d)] self) = Ok tt.
Proof.
  intros Hs Hf Hd. simpl.
  destruct (RotateSide_reachable f d _ Hs Hf Hd) as [-> H1].
  destruct (RotateSide_reachable f d _ H1 Hf Hd) as [-> H2].
  destruct (RotateSide_reachable f d _ H2 Hf Hd) as [-> H3].
  destruct (RotateSide_reachable f (flip d) _ Hs Hf (valid_direction_flip d Hd)) as [-> _].
  split; [|reflexivity]. f_equal.
  rewrite <- (turn_flip d f (turn d f (turn d f (turn d f self)))) by trivial.
  now rewrite turn_four_times by auto using reachable_inv.
Qed.

Lemma three_turns_are_one_back_witness :
  rotations [(CUBE_RED, ROTATE_COUNTER); (CUBE_RED, ROTATE_COUNTER); (CUBE_RED, ROTATE_COUNTER)]
    scrambled
  = rotations [(CUBE_RED, flip ROTATE_COUNTER)] scrambled /\
  fst (rotations [(CUBE_RED, flip ROTATE_COUNTER)] scrambled) = Ok tt.
Proof.
  apply (three_turns_are_one_back CUBE_RED ROTATE_COUNTER scrambled).
  - exact scrambled_reachable.
  - apply valid_side_dec; reflexivity.
  - right; reflexivity.
Defined.

(** ** Opposite faces *)

Lemma valid_side_opposite (f : Z) : valid_side f -> valid_side (opposite f).
Proof. intros Hf. each_side Hf; apply valid_side_dec; reflexivity. Qed.

Lemma turn_opposite_commute (f d1 d2 : Z) (self : RubicsCube) :
  cube_inv (_cube self) -> valid_side f -> valid_direction d1 -> valid_direction d2 ->
  turn d2 (opposite f) (turn d1 f self) = turn d1 f (turn d2 (opposite f) self).
Proof.
  intros H Hf H1 H2. destruct self as [cube solved]. simpl in H. invert_cube H.
  each_side Hf; destruct H1 as [-> | ->]; destruct H2 as [-> | ->];
    unfold turn; py_top; reflexivity.
Qed.

(** X4.  Turns of two opposite faces commute, for each of the three pairs. *)
Theorem opposite_faces_commute (f d1 d2 : Z) (self : RubicsCube) :
  reachable self -> valid_side f -> valid_direction d1 -> valid_direction d2 ->
  rotations [(f, d1); (opposite f, d2)] self = rotations [(opposite f, d2); (f, d1)] self /\
  fst (rotations [(f, d1); (opposite f, d2)] self) = Ok tt.
Proof.
  intros Hs Hf H1 H2. pose proof (valid_side_opposite f Hf) as Ho. simpl.
  destruct (RotateSide_reachable f d1 _ Hs Hf H1) as [-> Hs1].
  destruct (RotateSide_reachable (opposite f) d2 _ Hs1 Ho H2) as [-> _].
  destruct (RotateSide_reachable (opposite f) d2 _ Hs Ho H2) as [-> Hs2].
  destruct (RotateSide_reachable f d1 _ Hs2 Hf H1) as [-> _].
  split; [|reflexivity].
  now rewrite turn_opposite_commute by auto using reachable_inv.
Qed.

Lemma opposite_faces_commute_witness :
  rotations [(CUBE_GREEN, ROTATE_CLOCKWISE); (opposite CUBE_GREEN, ROTATE_CLOCKWISE)] scrambled
  = rotations [(opposite CUBE_GREEN, ROTATE_CLOCKWISE); (CUBE_GREEN, ROTATE_CLOCKWISE)] scrambled /\
  fst (rotations [(CUBE_GREEN, ROTATE_CLOCKWISE); (opposite CUBE_GREEN, ROTATE_CLOCKWISE)]
         scrambled) = Ok tt.
Proof.
  apply (opposite_faces_commute CUBE_GREEN ROTATE_CLOCKWISE ROTATE_CLOCKWISE scrambled).
  - exact scrambled_reachable.
  - apply valid_side_dec; reflexivity.
  - left; reflexivity.
  - left; reflexivity.
Defined.

(** ** The colour cycle of an axis *)

(** X5.  For each of the six axes and any direction value, the colour cycle is
    defined on the four faces next to the axis and on nothing else; it
    maps them among themselves, twice applied it gives the opposite face
    and four times applied the face it started from. *)
Theorem side_edge_face_get_cycle (d f c : Z) :
  valid_side f ->
  (adjacent f c ->
   exists c1 c2 c3,
     _side_edge_face_get d f c = Ok c1 /\ _side_edge_face_get d f c1 = Ok c2 /\
     _side_edge_face_get d f c2 = Ok c3 /\ _side_edge_face_get d f c3 = Ok c /\
     adjacent f c1 /\ c1 <> c /\ c2 = opposite c) /\
  (~ adjacent f c -> _side_edge_face_get d f c = Raise (SystemExit "illegal face")).
Proof.
  intros Hf. split.
  - intros (Hc & Hcf & Hco).
    assert (forall d0, valid_direction d0 ->
              exists c1 c2 c3,
                _side_edge_face_get d0 f c = Ok c1 /\ _side_edge_face_get d0 f c1 = Ok c2 /\
                _side_edge_face_get d0 f c2 = Ok c3 /\ _side_edge_face_get d0 f c3 = Ok c /\
                adjacent f c1 /\ c1 <> c /\ c2 = opposite c) as Hgen.
    { intros d0 Hd0.
      pose (nxt := fun x => match _side_edge_face_get d0 f x with Ok y => y | Raise _ => x end).
      exists (nxt c), (nxt (nxt c)), (nxt (nxt (nxt c))). subst nxt.
      destruct Hd0 as [-> | ->]; each_side Hf; each_side Hc;
        try (exfalso; apply Hcf; reflexivity); try (exfalso; apply Hco; reflexivity);
        repeat split; try reflexivity; try discriminate; apply valid_side_dec; reflexivity. }
    destruct (Z.eq_dec d ROTATE_CLOCKWISE) as [-> | Hne].
    + apply Hgen. now left.
    + destruct (Hgen ROTATE_COUNTER) as (c1 & c2 & c3 & H); [now right|].
      exists c1, c2, c3. now rewrite !(side_edge_face_get_direction d) by trivial.
  - intros Hn.
    assert (forall k, adjacent f k -> c <> k) as Hk by (intros k Hk ->; contradiction).
    unfold _side_edge_face_get, _side_edge_yellow, _side_edge_orange, _side_edge_blue,
      _side_edge_white, _side_edge_red, _side_edge_green.
    each_side Hf; unfold_colors; cbn -[Z.eqb];
      destruct (d =? 0); cbn -[Z.eqb];
      repeat match goal with
        | |- context [c =? ?k] =>
            destruct (Z.eqb_spec c k) as [E|_];
            [exfalso; apply (Hk k); [|exact E];
             repeat split; try discriminate; apply valid_side_dec; reflexivity |]
        end; reflexivity.
Qed.

Lemma side_edge_face_get_cycle_witness :
  exists c1 c2 c3,
    _side_edge_face_get ROTATE_COUNTER CUBE_BLUE CUBE_WHITE = Ok c1 /\
    _side_edge_face_get ROTATE_COUNTER CUBE_BLUE c1 = Ok c2 /\
    _side_edge_face_get ROTATE_COUNTER CUBE_BLUE c2 = Ok c3 /\
    _side_edge_face_get ROTATE_COUNTER CUBE_BLUE c3 = Ok CUBE_WHITE /\
    adjacent CUBE_BLUE c1 /\ c1 <> CUBE_WHITE /\ c2 = opposite CUBE_WHITE.
Proof.
  apply (proj1 (side_edge_face_get_cycle ROTATE_COUNTER CUBE_BLUE CUBE_WHITE
                  (valid_side_dec CUBE_BLUE eq_refl eq_refl))).
  repeat split; discriminate.
Defined.

(** ** The position pass alone *)

(** X6.  On any ring of eight cells the position pass one way is undone by the
    position pass the other way, and four passes one way give the ring
    back. *)
Theorem rotate_colors_inverse (side : Side) (f : Z) :
  length side = 8%nat ->
  (exists s1, _rotate_colors ROTATE_CLOCKWISE f side = Ok s1 /\
              _rotate_colors ROTATE_COUNTER f s1 = Ok side) /\
  (exists s1, _rotate_colors ROTATE_COUNTER f side = Ok s1 /\
              _rotate_colors ROTATE_CLOCKWISE f s1 = Ok side) /\
  (forall d, exists s1 s2 s3,
      _rotate_colors d f side = Ok s1 /\ _rotate_colors d f s1 = Ok s2 /\
      _rotate_colors d f s2 = Ok s3 /\ _rotate_colors d f s3 = Ok side).
Proof.
  intros H. destruct (length8 _ H) as (a0 & a1 & a2 & a3 & a4 & a5 & a6 & a7 & ->).
  split; [|split].
  - eexists. split; vm_compute; reflexivity.
  - eexists. split; vm_compute; reflexivity.
  - intros d. unfold _rotate_colors. destruct (d =? ROTATE_CLOCKWISE);
      do 3 eexists; repeat split; vm_compute; reflexivity.
Qed.

Lemma rotate_colors_inverse_witness :
  let ring := [_CUBE_WR; _CUBE_WBR; _CUBE_BRM; _CUBE_YRB;
               _CUBE_YR; _CUBE_YGR; _CUBE_RGM; _CUBE_WRG] in
  (exists s1, _rotate_colors ROTATE_CLOCKWISE CUBE_RED ring = Ok s1 /\
              _rotate_colors ROTATE_COUNTER CUBE_RED s1 = Ok ring) /\
  (exists s1, _rotate_colors ROTATE_COUNTER CUBE_RED ring = Ok s1 /\
              _rotate_colors ROTATE_CLOCKWISE CUBE_RED s1 = Ok ring) /\
  (forall d, exists s1 s2 s3,
      _rotate_colors d CUBE_RED ring = Ok s1 /\ _rotate_colors d CUBE_RED s1 = Ok s2 /\
      _rotate_colors d CUBE_RED s2 = Ok s3 /\ _rotate_colors d CUBE_RED s3 = Ok ring).
Proof.
  apply (rotate_colors_inverse
           [_CUBE_WR; _CUBE_WBR; _CUBE_BRM; _CUBE_YRB; _CUBE_YR; _CUBE_YGR; _CUBE_RGM; _CUBE_WRG]
           CUBE_RED).
  reflexivity.
Defined.

(** ** The face pass on the ring of a reachable cube *)

Lemma side_get_holds (f : Z) (self : RubicsCube) :
  cube_inv (_cube self) -> valid_side f ->
  exists ring, _side_get self f = Ok ring /\ Forall2 holds (ring_pieces f) ring.
Proof.
  intros H Hf. destruct self as [cube solved]. simpl in H. invert_cube H.
  each_side Hf; eexists; (split; [vm_compute; reflexivity | ring_holds]).
Qed.

(** X7.  On the ring of any face of a reachable cube the face pass returns, and
    what it returns is the ring with every sticker relabelled once by the
    cycle of the face: no cell moves, no colour changes, and no corner
    sticker is remapped twice. *)
Theorem rotate_faces_on_reachable (d f : Z) (self : RubicsCube) :
  reachable self -> valid_side f -> valid_direction d ->
  exists ring,
    _side_get self f = Ok ring /\
    _rotate_faces d f ring = Ok (relabel_ring d f ring) /\
    map stickers (relabel_ring d f ring) = map stickers ring.
Proof.
  intros Hs Hf Hd.
  destruct (side_get_holds f self (reachable_inv _ Hs) Hf) as (ring & Hg & Hr).
  exists ring. split; [exact Hg|]. split; [now apply rotate_faces_relabel|].
  clear Hg. each_side Hf;
    match type of Hr with
    | Forall2 _ ?ps _ => let l := eval vm_compute in ps in change ps with l in Hr
    end;
    invert_Forall2 Hr; cbn [relabel_ring map]; forget_relabel; reflexivity.
Qed.

Lemma rotate_faces_on_reachable_witness :
  exists ring,
    _side_get scrambled CUBE_RED = Ok ring /\
    _rotate_faces ROTATE_CLOCKWISE CUBE_RED ring = Ok (relabel_ring ROTATE_CLOCKWISE CUBE_RED ring) /\
    map stickers (relabel_ring ROTATE_CLOCKWISE CUBE_RED ring) = map stickers ring.
Proof.
  apply (rotate_faces_on_reachable ROTATE_CLOCKWISE CUBE_RED scrambled).
  - exact scrambled_reachable.
  - apply valid_side_dec; reflexivity.
  - left; reflexivity.
Defined.

(** ** What every reachable cube keeps *)

(** X8.  Every reachable cube has at each place a cell of the kind the new cube
    has there, with its stickers bound to the same faces as in the new
    cube, in some order; the centres are those of the new cube, and the
    solved snapshot is untouched. *)
Theorem reachable_keeps_layout (self : RubicsCube) :
  reachable self ->
  cube_inv (_cube self) /\ shaped (_cube self) /\ _cube_solved self = _cube __init__.
Proof.
  intros Hs. pose proof (reachable_inv _ Hs) as H.
  split; [exact H|]. split; [|now apply reachable_solved].
  destruct self as [cube solved]. simpl in *. invert_cube H.
  split; [reflexivity | repeat constructor].
Qed.

Lemma reachable_keeps_layout_witness :
  cube_inv (_cube scrambled) /\ shaped (_cube scrambled) /\ _cube_solved scrambled = _cube __init__.
Proof. apply (reachable_keeps_layout scrambled). exact scrambled_reachable. Defined.

(** ** Pieces are moved, never made or lost *)

Lemma identity_relabel_edge (d f a b : Z) (cell : Cell) :
  holds (PEdge a b) cell -> piece_id (relabel_edge d f cell) = piece_id cell.
Proof. inversion 1; reflexivity. Qed.

Lemma identity_relabel_corner (d f a b c : Z) (cell : Cell) :
  holds (PCorner a b c) cell -> piece_id (relabel_corner d f cell) = piece_id cell.
Proof. inversion 1; reflexivity. Qed.

Ltac forget_relabel_identity :=
  repeat match goal with
    | Hr : holds (PEdge _ _) ?r |- context [piece_id (relabel_edge ?d ?f ?r)] =>
        rewrite (identity_relabel_edge d f _ _ r Hr)
    | Hr : holds (PCorner _ _ _) ?r |- context [piece_id (relabel_corner ?d ?f ?r)] =>
        rewrite (identity_relabel_corner d f _ _ _ r Hr)
    end.

Lemma turn_piece_count (d f : Z) (id : list Z) (self : RubicsCube) :
  cube_inv (_cube self) -> valid_side f -> valid_direction d ->
  piece_count (_cube (turn d f self)) id = piece_count (_cube self) id.
Proof.
  intros H Hf Hd. destruct self as [cube solved]. simpl in H. invert_cube H.
  each_side Hf; destruct Hd as [-> | ->];
    match goal with
    | |- context [turn ?d ?f ?s] =>
        let t := eval cbv -[_rotate_faces relabel_edge relabel_corner sigma] in (turn d f s) in
        change (turn d f s) with t
    end;
    unfold piece_count; cbn [_cube concat app map];
    forget_relabel_identity; unfold list_sum; cbn [fold_right]; lia.
Qed.

(** X9.  Every reachable cube is made of the pieces of the new cube: for every
    kind and colours, as many cells carry them as in the new cube, and
    each of the 24 cells of the new cube is there exactly once. *)
Theorem pieces_conserved (self : RubicsCube) :
  reachable self ->
  (forall id, piece_count (_cube self) id = piece_count (_cube __init__) id) /\
  (forall cell, In cell (concat (_cube __init__)) ->
                piece_count (_cube self) (piece_id cell) = 1%nat).
Proof.
  intros Hs.
  assert (forall id, piece_count (_cube self) id = piece_count (_cube __init__) id) as E.
  { induction Hs as [|self self' f d H IH Hf Hd Hr]; intros id; [reflexivity|].
    destruct (RotateSide_reachable f d self H Hf Hd) as [E _].
    rewrite E in Hr. injection Hr as <-.
    rewrite turn_piece_count by auto using reachable_inv. apply IH. }
  split; [exact E|].
  intros cell Hin. rewrite E. simpl in Hin.
  repeat (destruct Hin as [<- | Hin]; [vm_compute; reflexivity|]). contradiction.
Qed.

Lemma pieces_conserved_witness :
  (forall id, piece_count (_cube scrambled) id = piece_count (_cube __init__) id) /\
  (forall cell, In cell (concat (_cube __init__)) ->
                piece_count (_cube scrambled) (piece_id cell) = 1%nat).
Proof. apply (pieces_conserved scrambled). exact scrambled_reachable. Defined.

(** ** A call that raises leaves the cube as it was *)



Ltac bind_inv H :=
  repeat match type of H with
    | bind ?m _ = Ok _ =>
        let E := fresh "E" in
        destruct m eqn:E; [cbn [bind] in H | discriminate H]
    | (let '(_, _) := ?p in _) = Ok _ => destruct p
    | (let (_, _) := ?p in _) = Ok _ => destruct p
    | (let 'mkScratch _ _ _ _ _ _ _ _ := ?p in _) = Ok _ => destruct p
    end.


Lemma side_deepcopy_length (side : Side) (s : Scratch) :
  _side_deepcopy side = Ok s -> (8 <= length side)%nat.
Proof.
  unfold _side_deepcopy. intros H. bind_inv H.
  match goal with
  | E : Py.getitem side _SIDE_INDEX_1030 = Ok _ |- _ =>
      apply getitem_nonneg in E; [|discriminate];
      assert (nth_error side (Z.to_nat _SIDE_INDEX_1030) <> None) as Hn by congruence;
      apply nth_error_Some in Hn; exact Hn
  end.
Qed.








(** ** Printing a face *)

Lemma edge_color_get_shown (f idx a b : Z) (side : Side) (cell : Cell) :
  Py.getitem side idx = Ok cell -> holds (PEdge a b) cell -> a = f \/ b = f ->
  _side_edge_color_get f side idx = Ok (shown_edge f cell).
Proof.
  intros Hg H Hf. inversion H as [? ? c0 c1 f0 f1 x y Hc | |]; subst.
  unfold _side_edge_color_get, side_cell_item. rewrite Hg. py_eval.
  destruct (Z.eqb_spec f f0); [reflexivity|].
  destruct (Z.eqb_spec f f1); [reflexivity|]. lia.
Qed.

Lemma corner_color_get_shown (f idx a b c : Z) (side : Side) (cell : Cell) :
  Py.getitem side idx = Ok cell -> holds (PCorner a b c) cell -> a = f \/ b = f \/ c = f ->
  _side_corner_color_get f side idx = Ok (shown_corner f cell).
Proof.
  intros Hg H Hf. inversion H as [| ? ? ? c0 c1 c2 g0 g1 g2 Hin |]; subst.
  unfold _side_corner_color_get, side_cell_item. rewrite Hg. py_eval.
  destruct (Z.eqb_spec f g0); [reflexivity|].
  destruct (Z.eqb_spec f g1); [reflexivity|].
  destruct (Z.eqb_spec f g2); [reflexivity|].
  simpl in Hin. exfalso.
  repeat (destruct Hin as [Hin | Hin]; [injection Hin as <- <- <-; lia|]). contradiction.
Qed.

Ltac color_step :=
  match goal with
  | |- context [_side_edge_color_get ?f ?side ?idx] =>
      let c := eval vm_compute in (Py.getitem side idx) in
      match c with
      | Ok ?r =>
          match goal with
          | H : holds (PEdge ?a ?b) r |- _ =>
              rewrite (edge_color_get_shown f idx a b side r eq_refl H)
                by ((left; reflexivity) || (right; reflexivity))
          end
      end
  | |- context [_side_corner_color_get ?f ?side ?idx] =>
      let c := eval vm_compute in (Py.getitem side idx) in
      match c with
      | Ok ?r =>
          match goal with
          | H : holds (PCorner ?a ?b ?c3) r |- _ =>
              rewrite (corner_color_get_shown f idx a b c3 side r eq_refl H)
                by ((left; reflexivity) || (right; left; reflexivity)
                    || (right; right; reflexivity))
          end
      end
  end.

Lemma PrintSide_grid (flag f : Z) (self : RubicsCube) :
  cube_inv (_cube self) -> valid_side f ->
  PrintSide self flag f = Ok (grid_of f (ring_of self f)).
Proof.
  intros H Hf. destruct (side_get_holds f self H Hf) as (ring & Hg & Hr).
  unfold PrintSide, ring_of. rewrite Hg. cbn [bind].
  replace (if flag =? PRINT_SIDE_LABEL then print_side_label f else Ok tt) with (Ok tt)
    by (destruct (flag =? PRINT_SIDE_LABEL); [each_side Hf|]; reflexivity).
  cbn [bind]. clear Hg.
  each_side Hf;
    match type of Hr with
    | Forall2 _ ?ps _ => let l := eval vm_compute in ps in change ps with l in Hr
    end;
    invert_Forall2 Hr;
    do 8 (color_step; cbn [bind]); reflexivity.
Qed.

Ltac shown_id :=
  match goal with
  | |- context [relabel_edge _ _ ?r] =>
      is_var r;
      match goal with
      | Hr : holds _ r |- _ =>
          inversion Hr as [? ? ? ? ? ? ? ? Hc | |]; subst;
          destruct Hc as [[-> ->] | [-> ->]]; vm_compute; reflexivity
      end
  | |- context [relabel_corner _ _ ?r] =>
      is_var r;
      match goal with
      | Hr : holds _ r |- _ =>
          inversion Hr as [| ? ? ? ? ? ? ? ? ? Hin |]; subst; simpl in Hin;
          repeat (destruct Hin as [Hin | Hin];
                  [injection Hin as <- <- <-; vm_compute; reflexivity|]);
          contradiction
      end
  | |- _ => reflexivity
  end.

Lemma grid_after_turn (f : Z) (self : RubicsCube) :
  cube_inv (_cube self) -> valid_side f ->
  grid_of f (ring_of (turn ROTATE_CLOCKWISE f self) f)
  = quarter_turn (grid_of f (ring_of self f)) /\
  grid_of f (ring_of (turn ROTATE_COUNTER f self) f)
  = quarter_turn_back (grid_of f (ring_of self f)).
Proof.
  intros H Hf. destruct self as [cube solved]. simpl in H. invert_cube H.
  each_side Hf; split;
    cbv -[_rotate_faces relabel_edge relabel_corner sigma shown_edge shown_corner];
    repeat match goal with
      | |- context [shown_edge ?g (relabel_edge ?d ?g ?r)] =>
          replace (shown_edge g (relabel_edge d g r)) with (shown_edge g r) by shown_id
      | |- context [shown_corner ?g (relabel_corner ?d ?g ?r)] =>
          replace (shown_corner g (relabel_corner d g r)) with (shown_corner g r) by shown_id
      end;
    reflexivity.
Qed.

(** X11.  On a reachable cube [PrintSide] of a valid face returns (no lookup
    fails), and a turn of that face turns the printed grid with it: a
    quarter clockwise for [ROTATE_CLOCKWISE], a quarter back for
    [ROTATE_COUNTER], the same nine colours in both cases. *)
Theorem PrintSide_follows_the_turn (flag f : Z) (self : RubicsCube) :
  reachable self -> valid_side f ->
  exists grid,
    PrintSide self flag f = Ok grid /\
    PrintSide (snd (RotateSide f ROTATE_CLOCKWISE self)) flag f = Ok (quarter_turn grid) /\
    PrintSide (snd (RotateSide f ROTATE_COUNTER self)) flag f = Ok (quarter_turn_back grid).
Proof.
  intros Hs Hf. pose proof (reachable_inv _ Hs) as H.
  exists (grid_of f (ring_of self f)).
  destruct (grid_after_turn f self H Hf) as [E1 E2].
  destruct (RotateSide_reachable f ROTATE_CLOCKWISE self Hs Hf) as [-> H1]; [now left|].
  destruct (RotateSide_reachable f ROTATE_COUNTER self Hs Hf) as [-> H2]; [now right|].
  cbn [snd].
  rewrite !PrintSide_grid by auto using reachable_inv.
  now rewrite E1, E2.
Qed.

Lemma PrintSide_follows_the_turn_witness :
  exists grid,
    PrintSide scrambled PRINT_SIDE_LABEL CUBE_GREEN = Ok grid /\
    PrintSide (snd (RotateSide CUBE_GREEN ROTATE_CLOCKWISE scrambled)) PRINT_SIDE_LABEL CUBE_GREEN
    = Ok (quarter_turn grid) /\
    PrintSide (snd (RotateSide CUBE_GREEN ROTATE_COUNTER scrambled)) PRINT_SIDE_LABEL CUBE_GREEN
    = Ok (quarter_turn_back grid).
Proof.
  apply (PrintSide_follows_the_turn PRINT_SIDE_LABEL CUBE_GREEN scrambled).
  - exact scrambled_reachable.
  - apply valid_side_dec; reflexivity.
Defined.

Lemma side_get_opposite_after_turn (d f : Z) (self : RubicsCube) :
  cube_inv (_cube self) -> valid_side f -> valid_direction d ->
  _side_get (turn d f self) (opposite f) = _side_get self (opposite f).
Proof.
  intros H Hf Hd. destruct self as [cube solved]. simpl in H. invert_cube H.
  each_side Hf; destruct Hd as [-> | ->]; py_top; reflexivity.
Qed.

(** X12.  A turn of a face leaves the ring of the opposite face, and so the grid
    printed for it, as it was. *)
Theorem opposite_face_untouched (flag d f : Z) (self : RubicsCube) :
  reachable self -> valid_side f -> valid_direction d ->
  _side_get (snd (RotateSide f d self)) (opposite f) = _side_get self (opposite f) /\
  PrintSide (snd (RotateSide f d self)) flag (opposite f) = PrintSide self flag (opposite f).
Proof.
  intros Hs Hf Hd.
  destruct (RotateSide_reachable f d self Hs Hf Hd) as [-> _]. cbn [snd].
  pose proof (side_get_opposite_after_turn d f self (reachable_inv _ Hs) Hf Hd) as E.
  split; [exact E|]. unfold PrintSide. now rewrite E.
Qed.

Lemma opposite_face_untouched_witness :
  _side_get (snd (RotateSide CUBE_RED ROTATE_COUNTER scrambled)) (opposite CUBE_RED)
  = _side_get scrambled (opposite CUBE_RED) /\
  PrintSide (snd (RotateSide CUBE_RED ROTATE_COUNTER scrambled)) PRINT_SIDE_LABEL (opposite CUBE_RED)
  = PrintSide scrambled PRINT_SIDE_LABEL (opposite CUBE_RED).
Proof.
  apply (opposite_face_untouched PRINT_SIDE_LABEL ROTATE_COUNTER CUBE_RED scrambled).
  - exact scrambled_reachable.
  - apply valid_side_dec; reflexivity.
  - right; reflexivity.
Defined.

(** ** Printing the cube *)

Lemma count_color_cons (color x : Z) (l : list Z) :
  count_color color (x :: l) = (hit color x + count_color color l)%nat.
Proof. unfold count_color, hit. simpl. now destruct (color =? x). Qed.

Lemma edge_shown_count (color a b : Z) (cell : Cell) :
  holds (PEdge a b) cell -> a <> b ->
  (hit color (shown_edge a cell) + hit color (shown_edge b cell))%nat
  = count_color color (stickers cell).
Proof.
  intros H Hab. inversion H as [? ? c0 c1 f0 f1 x y Hc | |]; subst.
  change (stickers [CUBE_EDGE; c0; c1; f0; f1; x; y]) with [c0; c1].
  rewrite !count_color_cons. unfold shown_edge, count_color. simpl.
  destruct Hc as [[-> ->] | [-> ->]].
  - rewrite Z.eqb_refl. destruct (Z.eqb_spec b a); lia.
  - rewrite Z.eqb_refl. destruct (Z.eqb_spec a b); lia.
Qed.

Lemma corner_shown_count (color a b c : Z) (cell : Cell) :
  holds (PCorner a b c) cell -> a <> b -> a <> c -> b <> c ->
  (hit color (shown_corner a cell) + hit color (shown_corner b cell)
   + hit color (shown_corner c cell))%nat
  = count_color color (stickers cell).
Proof.
  intros H Hab Hac Hbc. inversion H as [| ? ? ? c0 c1 c2 g0 g1 g2 Hin |]; subst.
  change (stickers [CUBE_CORNER; c0; c1; c2; g0; g1; g2]) with [c0; c1; c2].
  rewrite !count_color_cons. unfold shown_corner, count_color. simpl in *.
  repeat (destruct Hin as [Hin | Hin];
          [injection Hin as <- <- <-;
           repeat match goal with
             | |- context [?u =? ?v] => destruct (Z.eqb_spec u v); try lia
             end|]).
  contradiction.
Qed.

Ltac count_cells color :=
  repeat match goal with
    | H : holds (PEdge ?a ?b) ?r |- _ =>
        pose proof (edge_shown_count color a b r H ltac:(discriminate));
        clear H
    | H : holds (PCorner ?a ?b ?c) ?r |- _ =>
        pose proof (corner_shown_count color a b c r H
                      ltac:(discriminate) ltac:(discriminate) ltac:(discriminate));
        clear H
    end.

Ltac eval_known :=
  repeat match goal with
    | |- context [hit ?c ?x] =>
        lazymatch x with
        | shown_edge _ _ => fail
        | shown_corner _ _ => fail
        | _ => let v := eval vm_compute in (hit c x) in change (hit c x) with v
        end
    | |- context [count_color ?c (stickers (?x :: ?l))] =>
        let v := eval vm_compute in (count_color c (stickers (x :: l))) in
        change (count_color c (stickers (x :: l))) with v
    | H : context [count_color ?c (stickers (?x :: ?l))] |- _ =>
        let v := eval vm_compute in (count_color c (stickers (x :: l))) in
        change (count_color c (stickers (x :: l))) with v in H
    end.

(** X13.  On a reachable cube [PrintCube] returns, and the six grids it prints
    show, centres included, exactly nine squares of each colour. *)
Theorem PrintCube_shows_nine_of_each (self : RubicsCube) (color : Z) :
  reachable self -> valid_side color ->
  exists grids,
    PrintCube self = Ok grids /\
    length grids = 6%nat /\
    count_color color (concat (concat grids)) = 9%nat.
Proof.
  intros Hs Hc. pose proof (reachable_inv _ Hs) as H.
  pose proof (reachable_counts _ Hs) as (Hw & Hy & Hr & Hg & Ho & Hb).
  unfold PrintCube, print_sides.
  rewrite !PrintSide_grid by (trivial; apply valid_side_dec; reflexivity).
  cbn [bind]. eexists. split; [reflexivity|]. split; [reflexivity|].
  destruct self as [cube solved]. simpl in *. invert_cube H.
  unfold sticker_count, list_sum in *.
  cbn [concat app map fold_right] in Hw, Hy, Hr, Hg, Ho, Hb.
  cbv -[shown_edge shown_corner count_color].
  rewrite !count_color_cons. change (count_color color []) with 0%nat.
  count_cells color.
  each_side Hc; eval_known; lia.
Qed.

Lemma PrintCube_shows_nine_of_each_witness :
  exists grids,
    PrintCube scrambled = Ok grids /\
    length grids = 6%nat /\
    count_color CUBE_WHITE (concat (concat grids)) = 9%nat.
Proof.
  apply (PrintCube_shows_nine_of_each scrambled CUBE_WHITE).
  - exact scrambled_reachable.
  - apply valid_side_dec; reflexivity.
Defined.

(** ** [TestRotate] *)

Lemma print_sides_reachable (faces : list Z) (self : RubicsCube) :
  cube_inv (_cube self) -> Forall valid_side faces ->
  exists grids, print_sides self faces = Ok grids.
Proof.
  intros H Hf. induction Hf as [|f faces Hf _ [grids IH]].
  - eexists; reflexivity.
  - simpl. rewrite PrintSide_grid, IH by trivial. eexists; reflexivity.
Qed.

Lemma test_rotate_faces_valid (flag f : Z) :
  valid_side f ->
  Forall valid_side
    (let '(shown, solved_missing_1, solved_missing_2) := test_rotate_faces f in
     shown ++
     (if flag =? TEST_ROTATE_BACK then
        (if solved_missing_1 =? CUBE_ID then [] else [solved_missing_1]) ++
        (if solved_missing_2 =? CUBE_ID then [] else [solved_missing_2])
      else [])).
Proof.
  intros Hf. each_side Hf; destruct (flag =? TEST_ROTATE_BACK) eqn:E; cbn; rewrite ?E; cbn;
    repeat (apply Forall_cons; [apply valid_side_dec; reflexivity|]); apply Forall_nil.
Qed.

Lemma cube_eqb_eq (a b : Cube) : cube_eqb a b = true <-> a = b.
Proof.
  assert (forall (A : Type) (eqb : A -> A -> bool),
             (forall x y, eqb x y = true <-> x = y) ->
             forall l1 l2, list_eqb eqb l1 l2 = true <-> l1 = l2) as L.
  { intros A eqb He. induction l1 as [|x t IH]; intros [|y t2]; simpl;
      try (split; [discriminate | discriminate]); [tauto|].
    rewrite andb_true_iff, He, IH. split; [intros [-> ->]; reflexivity | now intros [= -> ->]]. }
  apply L, L, L, Z.eqb_eq.
Qed.

Lemma TestRotate_on_reachable (flag f d n : Z) (self : RubicsCube) :
  reachable self -> valid_side f -> valid_direction d ->
  exists self',
    rotations (repeat (f, d) (Z.to_nat n mod 4)) self = (Ok tt, self') /\
    TestRotate flag f d n self
    = (if (flag =? TEST_ROTATE_BACK) && negb (cube_eqb (_cube self') (_cube __init__))
       then Raise (SystemExit "** NOT SOLVED **") else Ok tt, self').
Proof.
  intros Hs Hf Hd.
  assert (Forall valid_call (repeat (f, d) (Z.to_nat n mod 4))) as Hv.
  { apply Forall_forall. intros c Hc. apply repeat_spec in Hc. subst c. now split. }
  destruct (rotations_reachable _ Hv self Hs) as (self' & E & Hs').
  exists self'. split; [exact E|].
  unfold TestRotate. rewrite rotations_repeat_mod_4, E by trivial.
  pose proof (test_rotate_faces_valid flag f Hf) as Hp.
  destruct (test_rotate_faces f) as [[shown m1] m2].
  destruct (print_sides_reachable _ self' (reachable_inv _ Hs') Hp) as [grids ->].
  rewrite (reachable_solved _ Hs'). change (_cube_solved __init__) with (_cube __init__).
  unfold _test_resolve_msg.
  destruct (flag =? TEST_ROTATE_BACK); [|reflexivity].
  now destruct (cube_eqb (_cube self') (_cube __init__)).
Qed.

(** X14.  On a reachable cube [TestRotate] never exits while it rotates and
    prints; it leaves the cube [n mod 4] turns on; and only with the flag
    [TEST_ROTATE_BACK] can it exit at its end, which it does exactly when
    that cube is not the solved one. *)
Theorem TestRotate_exits_only_unsolved (flag f d n : Z) (self : RubicsCube) :
  reachable self -> valid_side f -> valid_direction d ->
  exists self',
    rotations (repeat (f, d) (Z.to_nat n mod 4)) self = (Ok tt, self') /\
    snd (TestRotate flag f d n self) = self' /\
    (fst (TestRotate flag f d n self) = Ok tt <->
     flag <> TEST_ROTATE_BACK \/ _cube self' = _cube_solved self') /\
    (fst (TestRotate flag f d n self) <> Ok tt ->
     fst (TestRotate flag f d n self) = Raise (SystemExit "** NOT SOLVED **")).
Proof.
  intros Hs Hf Hd.
  destruct (TestRotate_on_reachable flag f d n self Hs Hf Hd) as (self' & E & ->).
  exists self'. split; [exact E|]. split; [reflexivity|]. cbn [fst].
  assert (reachable self') as Hs'.
  { assert (Forall valid_call (repeat (f, d) (Z.to_nat n mod 4))) as Hv.
    { apply Forall_forall. intros c Hc. apply repeat_spec in Hc. subst c. now split. }
    destruct (rotations_reachable _ Hv self Hs) as (s2 & E2 & Hs2). congruence. }
  rewrite (reachable_solved _ Hs'). change (_cube_solved __init__) with (_cube __init__).
  rewrite <- cube_eqb_eq.
  destruct (Z.eqb_spec flag TEST_ROTATE_BACK) as [-> | Hne];
    destruct (cube_eqb (_cube self') (_cube __init__)); cbn;
    (split; [split; [intros; try tauto; try discriminate | intros; try reflexivity] | ]);
    try tauto; try intuition congruence.
Qed.

Lemma TestRotate_exits_only_unsolved_witness :
  exists self',
    rotations (repeat (CUBE_RED, ROTATE_CLOCKWISE) (Z.to_nat 7 mod 4)) scrambled = (Ok tt, self') /\
    snd (TestRotate TEST_ROTATE_BACK CUBE_RED ROTATE_CLOCKWISE 7 scrambled) = self' /\
    (fst (TestRotate TEST_ROTATE_BACK CUBE_RED ROTATE_CLOCKWISE 7 scrambled) = Ok tt <->
     TEST_ROTATE_BACK <> TEST_ROTATE_BACK \/ _cube self' = _cube_solved self') /\
    (fst (TestRotate TEST_ROTATE_BACK CUBE_RED ROTATE_CLOCKWISE 7 scrambled) <> Ok tt ->
     fst (TestRotate TEST_ROTATE_BACK CUBE_RED ROTATE_CLOCKWISE 7 scrambled)
     = Raise (SystemExit "** NOT SOLVED **")).
Proof.
  apply (TestRotate_exits_only_unsolved TEST_ROTATE_BACK CUBE_RED ROTATE_CLOCKWISE 7 scrambled).
  - exact scrambled_reachable.
  - apply valid_side_dec; reflexivity.
  - left; reflexivity.
Defined.

(** X15.  Started on the new cube with the flag [TEST_ROTATE_BACK],
    [TestRotate] returns when the number of turns is a multiple of four
    and exits with the not-solved message otherwise. *)
Theorem TestRotate_back_on_new_cube (f d n : Z) :
  valid_side f -> valid_direction d -> 0 <= n ->
  fst (TestRotate TEST_ROTATE_BACK f d n __init__)
  = if n mod 4 =? 0 then Ok tt else Raise (SystemExit "** NOT SOLVED **").
Proof.
  intros Hf Hd Hn.
  destruct (TestRotate_on_reachable TEST_ROTATE_BACK f d n __init__ reachable_init Hf Hd)
    as (self' & E & ->).
  cbn [fst]. rewrite Z.eqb_refl. cbn [andb].
  assert ((Z.to_nat n mod 4)%nat = Z.to_nat (n mod 4)) as Em.
  { rewrite Z2Nat.inj_mod by lia. reflexivity. }
  rewrite Em in E.
  assert (n mod 4 = 0 \/ n mod 4 = 1 \/ n mod 4 = 2 \/ n mod 4 = 3) as Hc
      by (pose proof (Z.mod_pos_bound n 4); lia).
  destruct Hc as [Hc | [Hc | [Hc | Hc]]]; rewrite Hc in *;
    each_side Hf; destruct Hd as [-> | ->];
    vm_compute in E; injection E as <-; reflexivity.
Qed.

Lemma TestRotate_back_on_new_cube_witness :
  fst (TestRotate TEST_ROTATE_BACK CUBE_BLUE ROTATE_COUNTER 6 __init__)
  = if 6 mod 4 =? 0 then Ok tt else Raise (SystemExit "** NOT SOLVED **").
Proof.
  apply (TestRotate_back_on_new_cube CUBE_BLUE ROTATE_COUNTER 6).
  - apply valid_side_dec; reflexivity.
  - right; reflexivity.
  - lia.
Defined.

(** ** The Y-permutator *)

Lemma flip_flip (d : Z) : valid_direction d -> flip (flip d) = d.
Proof. intros [-> | ->]; reflexivity. Qed.

(** X17.  The four rotations of [_y_permutator_core], bracketing one way and
    turning the other way in the middle, all return on a reachable cube,
    and the same function called with the two sides and the two directions
    exchanged undoes them. *)
Theorem y_permutator_core_undone (side_1 side_2 d : Z) (self : RubicsCube) :
  reachable self -> valid_side side_1 -> valid_side side_2 -> valid_direction d ->
  exists self',
    _y_permutator_core side_1 side_2 d (flip d) self = (Ok tt, self') /\
    _y_permutator_core side_2 side_1 (flip d) d self' = (Ok tt, self).
Proof.
  intros Hs H1 H2 Hd. pose proof (valid_direction_flip d Hd) as Hd'.
  unfold _y_permutator_core.
  assert (Forall valid_call [(side_1, d); (side_2, flip d); (side_1, flip d); (side_2, d)]) as Hv
      by (repeat (apply Forall_cons; [split; assumption|]); apply Forall_nil).
  destruct (rotations_reachable _ Hv self Hs) as (self' & E & _).
  exists self'. split; [exact E|].
  pose proof (rotations_wind_unwind _ self Hv Hs) as Hu.
  rewrite rotations_app, E in Hu. unfold unwind in Hu. simpl in Hu.
  now rewrite !flip_flip in Hu by trivial.
Qed.

Lemma y_permutator_core_undone_witness :
  exists self',
    _y_permutator_core CUBE_WHITE CUBE_GREEN ROTATE_CLOCKWISE (flip ROTATE_CLOCKWISE) scrambled
    = (Ok tt, self') /\
    _y_permutator_core CUBE_GREEN CUBE_WHITE (flip ROTATE_CLOCKWISE) ROTATE_CLOCKWISE self'
    = (Ok tt, scrambled).
Proof.
  apply (y_permutator_core_undone CUBE_WHITE CUBE_GREEN ROTATE_CLOCKWISE scrambled).
  - exact scrambled_reachable.
  - apply valid_side_dec; reflexivity.
  - apply valid_side_dec; reflexivity.
  - left; reflexivity.
Defined.

Lemma rotations_turns (calls : list (Z * Z)) :
  Forall valid_call calls ->
  forall self, reachable self ->
    rotations calls self = (Ok tt, turns calls self) /\ reachable (turns calls self).
Proof.
  induction 1 as [|[f d] calls [Hf Hd] _ IH]; intros self Hs.
  - split; [reflexivity | assumption].
  - simpl in Hf, Hd. simpl.
    destruct (RotateSide_reachable f d self Hs Hf Hd) as [-> Hs']. now apply IH.
Qed.

Lemma turns_core_six (a b d : Z) (self : RubicsCube) :
  cube_inv (_cube self) -> valid_side a -> valid_side b -> valid_direction d ->
  let core := [(a, d); (b, flip d); (a, flip d); (b, d)] in
  turns core (turns core (turns core (turns core (turns core (turns core self))))) = self.
Proof.
  intros H Ha Hb Hd. destruct self as [cube solved]. simpl in H. invert_cube H.
  each_side Ha; each_side Hb; destruct Hd as [-> | ->];
    cbv -[_rotate_faces relabel_edge relabel_corner sigma]; repeat f_equal; relabel_id.
Qed.

(** X18.  Six calls in a row of [_y_permutator_core], bracketing one way and
    turning the other way in the middle, all return on a reachable cube
    and give the cube back, for any two of the six faces. *)
Theorem y_permutator_core_six_times (side_1 side_2 d : Z) (self : RubicsCube) :
  reachable self -> valid_side side_1 -> valid_side side_2 -> valid_direction d ->
  times 6 (_y_permutator_core side_1 side_2 d (flip d)) self = (Ok tt, self).
Proof.
  intros Hs H1 H2 Hd. pose proof (valid_direction_flip d Hd) as Hd'.
  assert (Forall valid_call [(side_1, d); (side_2, flip d); (side_1, flip d); (side_2, d)]) as Hv
      by (repeat (apply Forall_cons; [split; assumption|]); apply Forall_nil).
  unfold times, _y_permutator_core.
  destruct (rotations_turns _ Hv _ Hs) as [-> Hs1].
  destruct (rotations_turns _ Hv _ Hs1) as [-> Hs2].
  destruct (rotations_turns _ Hv _ Hs2) as [-> Hs3].
  destruct (rotations_turns _ Hv _ Hs3) as [-> Hs4].
  destruct (rotations_turns _ Hv _ Hs4) as [-> Hs5].
  destruct (rotations_turns _ Hv _ Hs5) as [-> _].
  f_equal. apply turns_core_six; auto using reachable_inv.
Qed.

Lemma y_permutator_core_six_times_witness :
  times 6 (_y_permutator_core CUBE_WHITE CUBE_RED ROTATE_COUNTER (flip ROTATE_COUNTER)) scrambled
  = (Ok tt, scrambled).
Proof.
  apply (y_permutator_core_six_times CUBE_WHITE CUBE_RED ROTATE_COUNTER scrambled).
  - exact scrambled_reachable.
  - apply valid_side_dec; reflexivity.
  - apply valid_side_dec; reflexivity.
  - right; reflexivity.
Defined.

(** ** No mark is left behind *)

Ltac well_bound_cell :=
  match goal with
  | H : holds (PEdge _ _) ?r |- well_bound ?r =>
      inversion H as [? ? ? ? ? ? ? ? Hc | |]; subst;
      destruct Hc as [[-> ->] | [-> ->]]; vm_compute; intuition discriminate
  | H : holds (PCorner _ _ _) ?r |- well_bound ?r =>
      inversion H as [| ? ? ? ? ? ? ? ? ? Hc |]; subst; simpl in Hc;
      repeat (destruct Hc as [Hc | Hc];
              [injection Hc as <- <- <-; vm_compute; intuition discriminate|]);
      contradiction
  | |- well_bound _ => vm_compute; reflexivity
  end.

(** X19.  In every reachable cube each edge has its two stickers, and each
    corner its three, bound to distinct faces among the six: no face value
    carries the [CUBE_DELAY] mark of the face pass once a call is over. *)
Theorem reachable_cells_well_bound (self : RubicsCube) :
  reachable self -> Forall well_bound (concat (_cube self)).
Proof.
  intros Hs. pose proof (reachable_inv _ Hs) as H.
  destruct self as [cube solved]. simpl in *. invert_cube H.
  cbn [concat app]. repeat apply Forall_cons; try apply Forall_nil; well_bound_cell.
Qed.

Lemma reachable_cells_well_bound_witness : Forall well_bound (concat (_cube scrambled)).
Proof. apply (reachable_cells_well_bound scrambled). exact scrambled_reachable. Defined.

(** ** Reading back what was put *)

(** X20.  Reading the ring of a face right after a ring of eight cells
    was put there returns that ring: the index map of [_side_get] is the
    inverse of that of [_side_put], for each of the six faces. *)
Theorem side_get_after_side_put (self : RubicsCube) (f : Z) (side : Side) :
  valid_side f -> shaped (_cube self) -> length side = 8%nat ->
  exists self', _side_put f side self = (Ok tt, self') /\ _side_get self' f = Ok side.
Proof. apply side_get_side_put. Qed.

Lemma side_get_after_side_put_witness :
  let ring := [_CUBE_WR; _CUBE_WRG; _CUBE_WG; _CUBE_WGO;
               _CUBE_WO; _CUBE_WOB; _CUBE_WB; _CUBE_WBR] in
  exists self',
    _side_put CUBE_GREEN ring scrambled = (Ok tt, self') /\
    _side_get self' CUBE_GREEN = Ok ring.
Proof.
  apply (side_get_after_side_put scrambled CUBE_GREEN
           [_CUBE_WR; _CUBE_WRG; _CUBE_WG; _CUBE_WGO; _CUBE_WO; _CUBE_WOB; _CUBE_WB; _CUBE_WBR]).
  - apply valid_side_dec; reflexivity.
  - split; [reflexivity | repeat constructor].
  - reflexivity.
Defined.
